(** * Portfolio API: a shallow embedding of [main.py] and [schemas.py]

    The FastAPI handlers are embedded as functions into an exception monad.
    The module-level [db] handle, the server clock and the PyJWT and bson
    calls are made explicit:

    - a handler that reads [datetime.now(timezone.utc)] takes the clock
      reading [now] as an argument (microseconds since the epoch);
    - a handler that touches the store takes the global [db] (which is
      [None] when no store was configured) and, when it writes, returns the
      new store next to its response;
    - an exception that no handler catches reaches the framework, which
      answers with status 500. *)

From Stdlib Require Import ZArith NArith String Ascii List Lia.
From stdpp Require Import base option gmap strings list sorting.

Local Open Scope string_scope.
Local Open Scope list_scope.
Local Open Scope Z_scope.

(** ** Python values *)

(** bson's [ObjectId]: twelve bytes, kept as the 96-bit number they spell. *)
Inductive ObjectId := Oid (n : N).

(** A UTC [datetime]: microseconds since the epoch. *)
Abbreviation datetime := Z (only parsing).

(** The values a document or a token payload holds.  [VUrl] is pydantic's
    Url object, the Python value of a validated [HttpUrl] field. *)
Inductive value :=
| VNone
| VBool (b : bool)
| VInt (n : Z)
| VStr (s : string)
| VList (l : list string)
| VDatetime (t : datetime)
| VObjectId (o : ObjectId)
| VUrl (u : string).

#[global] Instance ObjectId_eq_dec : EqDecision ObjectId.
Proof. solve_decision. Defined.

#[global] Instance value_eq_dec : EqDecision value.
Proof. solve_decision. Defined.

(** A Python [dict] with string keys. *)
Abbreviation document := (gmap string value) (only parsing).

Definition opt_str (o : option string) : value :=
  match o with Some s => VStr s | None => VNone end.

Definition opt_datetime (o : option datetime) : value :=
  match o with Some t => VDatetime t | None => VNone end.

Definition opt_url (o : option string) : value :=
  match o with Some u => VUrl u | None => VNone end.

(** ** Exceptions *)

Inductive exn :=
| HTTPException (status_code : Z) (detail : string)
| ExpiredSignatureError
| InvalidTokenError (msg : string)
| InvalidId (msg : string)
| ValueError (msg : string)
| TypeError (msg : string)
| PyMongoError (msg : string)
| InvalidDocument (msg : string)
| OverflowError (msg : string).

#[global] Instance exn_eq_dec : EqDecision exn.
Proof. solve_decision. Defined.

Inductive result (A : Type) :=
| Return (a : A)
| Raise (e : exn).
Arguments Return {A} a.
Arguments Raise {A} e.

#[global] Instance result_ret : MRet result := fun A a => Return a.

#[global] Instance result_bind : MBind result := fun A B k m =>
  match m with
  | Return a => k a
  | Raise e => Raise e
  end.

(** [try: body / except ...: handler]. *)
Definition try_except {A} (body : result A) (handler : exn -> result A) : result A :=
  match body with
  | Return a => Return a
  | Raise e => handler e
  end.

(** [fastapi.status] *)
Definition HTTP_401_UNAUTHORIZED : Z := 401.
Definition HTTP_403_FORBIDDEN : Z := 403.

(** The status line the framework sends: 200 for a returned value, the
    status of an [HTTPException], and 500 for any other exception. *)
Definition http_status {A} (r : result A) : Z :=
  match r with
  | Return _ => 200
  | Raise (HTTPException c _) => c
  | Raise _ => 500
  end.

(** The error taxonomy of the specification, by HTTP status. *)
Inductive error_kind :=
| Unauthorized
| Forbidden
| NotFound
| ValidationError
| ServiceUnavailable
| InternalServerError.

Definition error_kind_of_status (c : Z) : option error_kind :=
  if c =? 401 then Some Unauthorized
  else if c =? 403 then Some Forbidden
  else if c =? 404 then Some NotFound
  else if (c =? 400) || (c =? 422) then Some ValidationError
  else if c =? 503 then Some ServiceUnavailable
  else if c =? 500 then Some InternalServerError
  else None.

Definition fails_with {A} (k : error_kind) (r : result A) : Prop :=
  match r with
  | Return _ => False
  | Raise _ => error_kind_of_status (http_status r) = Some k
  end.

(** ** bson.ObjectId *)

Definition hex_digit (c : ascii) : option N :=
  let n := N_of_ascii c in
  if ((48 <=? n) && (n <=? 57))%N then Some (n - 48)%N
  else if ((97 <=? n) && (n <=? 102))%N then Some (n - 87)%N
  else if ((65 <=? n) && (n <=? 70))%N then Some (n - 55)%N
  else None.

Fixpoint parse_hex (acc : N) (s : string) : option N :=
  match s with
  | EmptyString => Some acc
  | String c s' =>
      match hex_digit c with
      | Some d => parse_hex (acc * 16 + d)%N s'
      | None => None
      end
  end.

(** [ObjectId.is_valid(v)] on a string: 24 hexadecimal digits. *)
Definition ObjectId_is_valid (s : string) : bool :=
  (String.length s =? 24)%nat && bool_decide (is_Some (parse_hex 0 s)).

(** [ObjectId(s)] on a string: 24 characters, all hexadecimal digits (the
    whitespace [bytes.fromhex] would skip is not modelled). *)
Definition ObjectId_new (s : string) : result ObjectId :=
  if (String.length s =? 24)%nat then
    match parse_hex 0 s with
    | Some n => Return (Oid n)
    | None => Raise (InvalidId s)
    end
  else Raise (InvalidId s).

Definition hex_char (d : N) : ascii :=
  if (d <? 10)%N then ascii_of_N (48 + d) else ascii_of_N (87 + d).

Fixpoint to_hex (digits : nat) (n : N) (acc : string) : string :=
  match digits with
  | O => acc
  | S k => to_hex k (n / 16)%N (String (hex_char (n mod 16)%N) acc)
  end.

(** [str(oid)] *)
Definition ObjectId_str (o : ObjectId) : string :=
  match o with Oid n => to_hex 24 n "" end.

(** [PyObjectId.validate], the validator [main.py] declares for
    identifiers (no route uses it). *)
Definition PyObjectId_validate (v : string) : result ObjectId :=
  if negb (ObjectId_is_valid v) then Raise (ValueError "Invalid ObjectId")
  else ObjectId_new v.

(** ** PyJWT, HS256 *)

(** A compact token is either a well-formed JWS over a claim set, signed
    with some key, or a string that is no JWS at all.  The MAC is ideal:
    it verifies exactly under the key that produced it (HMAC's padding of
    short keys with zero bytes is not modelled). *)
Inductive token :=
| Signed (claims : gmap string value) (key : string)
| Malformed (s : string).

Definition numeric_date (v : value) : value :=
  match v with
  | VDatetime t => VInt (t / 1000000)
  | _ => v
  end.

(** [jwt.encode]: a [datetime] under a registered time claim becomes a
    NumericDate, whole seconds since the epoch. *)
Definition jwt_encode (payload : gmap string value) (key : string) : token :=
  Signed (alter numeric_date "nbf"
            (alter numeric_date "iat"
               (alter numeric_date "exp" payload))) key.

(** [jwt.decode(token, key, algorithms=["HS256"])] at clock reading [now]:
    the signature is checked first, then the expiry.  Of the registered
    claims only [exp] is modelled, and only as an integer. *)
Definition jwt_decode (tok : token) (key : string) (now : datetime)
  : result (gmap string value) :=
  match tok with
  | Malformed _ => Raise (InvalidTokenError "Not enough segments")
  | Signed claims k =>
      if decide (k = key) then
        match claims !! "exp" with
        | None => Return claims
        | Some (VInt e) =>
            if e * 1000000 <=? now then Raise ExpiredSignatureError
            else Return claims
        | Some _ =>
            Raise (InvalidTokenError "Expiration Time claim (exp) must be an integer.")
        end
      else Raise (InvalidTokenError "Signature verification failed")
  end.

(** ** Helpers of [main.py] *)

(** Process configuration, read once from the environment. *)
Record Settings := {
  JWT_SECRET : string;
  ADMIN_PASSWORD : string
}.

Definition default_settings : Settings :=
  {| JWT_SECRET := "supersecret"; ADMIN_PASSWORD := "admin123" |}.

Definition TOKEN_EXPIRE_MINUTES : Z := 60 * 8.

Definition timedelta_minutes (m : Z) : Z := m * 60 * 1000000.

Definition create_token (cfg : Settings) (now : datetime)
    (payload : gmap string value) : token :=
  let to_encode := payload in
  let to_encode :=
    <["exp" := VDatetime (now + timedelta_minutes TOKEN_EXPIRE_MINUTES)]> to_encode in
  jwt_encode to_encode (JWT_SECRET cfg).

Definition require_admin (cfg : Settings) (now : datetime) (credentials : token)
  : result (gmap string value) :=
  try_except
    (let token := credentials in
     data ← jwt_decode token (JWT_SECRET cfg) now;
     if decide (data !! "role" ≠ Some (VStr "admin")) then
       Raise (HTTPException HTTP_403_FORBIDDEN "Not authorized")
     else Return data)
    (fun e =>
       match e with
       | ExpiredSignatureError =>
           Raise (HTTPException HTTP_401_UNAUTHORIZED "Token expired")
       | _ => Raise (HTTPException HTTP_401_UNAUTHORIZED "Invalid token")
       end).

(** ** Auth *)

Record LoginRequest := { password : string }.

Record TokenResponse := {
  access_token : token;
  token_type : string
}.

(** [TokenResponse(access_token=...)]: [token_type] keeps its default. *)
Definition TokenResponse_new (t : token) : TokenResponse :=
  {| access_token := t; token_type := "bearer" |}.

Definition login (cfg : Settings) (now : datetime) (payload : LoginRequest)
  : result TokenResponse :=
  if decide (password payload ≠ ADMIN_PASSWORD cfg) then
    Raise (HTTPException HTTP_401_UNAUTHORIZED "Invalid credentials")
  else
    let token := create_token cfg now {["role" := VStr "admin"]} in
    Return (TokenResponse_new token).

(** ** Entity schemas ([schemas.py]) *)

Module Project.
Record t := {
  title : string;
  slug : string;
  summary : string;
  description : option string;
  tech : list string;
  role : option string;
  timeline : option string;
  logo_url : option string;
  demo_url : option string;
  repo_url : option string;
  tags : list string;
  featured : bool;
  created_at : option datetime;
  updated_at : option datetime
}.

Definition model_dump (p : t) : document :=
  <["title" := VStr (title p)]>
  (<["slug" := VStr (slug p)]>
  (<["summary" := VStr (summary p)]>
  (<["description" := opt_str (description p)]>
  (<["tech" := VList (tech p)]>
  (<["role" := opt_str (role p)]>
  (<["timeline" := opt_str (timeline p)]>
  (<["logo_url" := opt_url (logo_url p)]>
  (<["demo_url" := opt_url (demo_url p)]>
  (<["repo_url" := opt_url (repo_url p)]>
  (<["tags" := VList (tags p)]>
  (<["featured" := VBool (featured p)]>
  (<["created_at" := opt_datetime (created_at p)]>
  (<["updated_at" := opt_datetime (updated_at p)]> ∅))))))))))))).

(** A body the store can encode: none of its URL fields is set. *)
Definition storable (p : t) : Prop :=
  logo_url p = None /\ demo_url p = None /\ repo_url p = None.
End Project.

Module BlogPost.
Record t := {
  title : string;
  slug : string;
  excerpt : string;
  content : option string;
  tags : list string;
  read_time : Z;
  cover_url : option string;
  created_at : option datetime;
  updated_at : option datetime
}.

(** [read_time: int = Field(3, ge=1)] *)
Definition valid (p : t) : Prop := 1 <= read_time p.

Definition model_dump (p : t) : document :=
  <["title" := VStr (title p)]>
  (<["slug" := VStr (slug p)]>
  (<["excerpt" := VStr (excerpt p)]>
  (<["content" := opt_str (content p)]>
  (<["tags" := VList (tags p)]>
  (<["read_time" := VInt (read_time p)]>
  (<["cover_url" := opt_url (cover_url p)]>
  (<["created_at" := opt_datetime (created_at p)]>
  (<["updated_at" := opt_datetime (updated_at p)]> ∅)))))))).

(** A body the store can encode: [read_time] fits eight bytes and
    [cover_url] is not set. *)
Definition storable (p : t) : Prop :=
  (- 2 ^ 63 <= read_time p < 2 ^ 63) /\ cover_url p = None.
End BlogPost.

Module TechItem.
Record t := {
  name : string;
  category : option string;
  level : option string;
  icon : option string;
  created_at : option datetime;
  updated_at : option datetime
}.

Definition model_dump (p : t) : document :=
  <["name" := VStr (name p)]>
  (<["category" := opt_str (category p)]>
  (<["level" := opt_str (level p)]>
  (<["icon" := opt_str (icon p)]>
  (<["created_at" := opt_datetime (created_at p)]>
  (<["updated_at" := opt_datetime (updated_at p)]> ∅))))).
End TechItem.

(** ** The document store *)

(** Modelled from the spec: the [database] module, whose [db] handle
    [main.py] imports, is not part of the sources.  The store keeps, per
    collection name, its documents in insertion order; [fault] is the
    message of the error every operation raises while the server cannot be
    reached; [next_oid] is the identifier the next insert assigns. *)
Record Database := {
  fault : option string;
  collections : gmap string (list document);
  next_oid : N
}.

(** [db[name]] *)
Record Collection := {
  coll_db : Database;
  coll_name : string
}.

Definition db_get (d : Database) (name : string) : Collection :=
  {| coll_db := d; coll_name := name |}.

Definition documents (c : Collection) : list document :=
  default [] (collections (coll_db c) !! coll_name c).

Definition with_documents (c : Collection) (docs : list document) : Database :=
  {| fault := fault (coll_db c);
     collections := <[coll_name c := docs]> (collections (coll_db c));
     next_oid := next_oid (coll_db c) |}.

Definition reachable (d : Database) : result unit :=
  match fault d with
  | Some msg => Raise (PyMongoError msg)
  | None => Return tt
  end.

(** The sort order of the store on field values: by type first (null,
    numbers, strings, arrays, identifiers, booleans, dates), then within
    the type.  Two arrays compare as equal (no schema sorts on one).  A
    Url object is no BSON value and is never stored; it is ranked below
    the others to keep the order total on [value]. *)
Definition bson_rank (v : value) : Z :=
  match v with
  | VUrl _ => 0
  | VNone => 1
  | VInt _ => 2
  | VStr _ => 3
  | VList _ => 5
  | VObjectId _ => 7
  | VBool _ => 8
  | VDatetime _ => 9
  end.

Definition bson_leb (a b : value) : bool :=
  match a, b with
  | VInt x, VInt y => x <=? y
  | VStr x, VStr y => String.leb x y
  | VObjectId (Oid x), VObjectId (Oid y) => (x <=? y)%N
  | VBool x, VBool y => implb x y
  | VDatetime x, VDatetime y => x <=? y
  | _, _ => bson_rank a <=? bson_rank b
  end.

(** A missing field sorts as null. *)
Definition sort_key (key : string) (doc : document) : value :=
  default VNone (doc !! key).

(** [direction] is [1] (ascending) or [-1] (descending). *)
Definition sort_le (key : string) (direction : Z) (d1 d2 : document) : Prop :=
  if direction =? 1 then bson_leb (sort_key key d1) (sort_key key d2) = true
  else bson_leb (sort_key key d2) (sort_key key d1) = true.

#[global] Instance sort_le_dec key direction d1 d2 :
  Decision (sort_le key direction d1 d2).
Proof. unfold sort_le. destruct (direction =? 1); apply _. Defined.

(** A cursor: the query is built first and runs when it is iterated. *)
Record Cursor := {
  cur_coll : Collection;
  cur_sort : option (string * Z);
  cur_limit : Z
}.

(** [coll.find({})] *)
Definition find (c : Collection) : Cursor :=
  {| cur_coll := c; cur_sort := None; cur_limit := 0 |}.

Definition Cursor_sort (cur : Cursor) (key : string) (direction : Z) : Cursor :=
  {| cur_coll := cur_coll cur; cur_sort := Some (key, direction);
     cur_limit := cur_limit cur |}.

Definition Cursor_limit (cur : Cursor) (n : Z) : Cursor :=
  {| cur_coll := cur_coll cur; cur_sort := cur_sort cur; cur_limit := n |}.

Definition apply_sort (s : option (string * Z)) (docs : list document)
  : list document :=
  match s with
  | Some (key, direction) => merge_sort (sort_le key direction) docs
  | None => docs
  end.

(** A limit of 0 is no limit; a negative one counts by its absolute value. *)
Definition apply_limit (n : Z) (docs : list document) : list document :=
  if n =? 0 then docs else take (Z.abs_nat n) docs.

(** Iterating the cursor: sort, then truncate. *)
Definition Cursor_iter (cur : Cursor) : result (list document) :=
  _ ← reachable (coll_db (cur_coll cur));
  Return (apply_limit (cur_limit cur)
            (apply_sort (cur_sort cur) (documents (cur_coll cur)))).

(** [coll.find_one({key: v})]: the first match in store order. *)
Definition find_one (c : Collection) (key : string) (v : value)
  : result (option document) :=
  _ ← reachable (coll_db c);
  Return (List.find (fun doc => bool_decide (doc !! key = Some v)) (documents c)).

(** The BSON encoder, through which every document passes on its way to
    the server.  An integer must fit eight bytes and a Url object cannot be
    encoded; a datetime is kept to the whole millisecond. *)
Definition int_fits (v : value) : bool :=
  match v with
  | VInt n => (- 2 ^ 63 <=? n) && (n <? 2 ^ 63)
  | _ => true
  end.

Definition not_url (v : value) : bool :=
  match v with
  | VUrl _ => false
  | _ => true
  end.

(** A clock reading cut to the whole millisecond. *)
Definition to_millis (t : datetime) : datetime := t / 1000 * 1000.

Definition bson_round (v : value) : value :=
  match v with
  | VDatetime t => VDatetime (to_millis t)
  | _ => v
  end.

Definition encodable (doc : document) : Prop :=
  map_Forall (fun _ v => int_fits v = true) doc
  /\ map_Forall (fun _ v => not_url v = true) doc.

(** The encoder stops at the first value it refuses.  In the dumps of the
    three schemas the one integer field comes before the one URL field of
    its schema, so an oversized integer is reported first.  The messages
    are abridged (the driver's name the offending object). *)
Definition bson_encode (doc : document) : result document :=
  if decide (map_Forall (fun _ v => int_fits v = true) doc) then
    if decide (map_Forall (fun _ v => not_url v = true) doc) then
      Return (bson_round <$> doc)
    else Raise (InvalidDocument "cannot encode object: Url")
  else Raise (OverflowError "MongoDB can only handle up to 8-byte ints").

(** [coll.insert_one(doc)] for a document without [_id]: the driver assigns
    one and encodes the document; the store appends what was encoded.  The
    result is [inserted_id] and the store after the insert. *)
Definition insert_one (c : Collection) (doc : document)
  : result (ObjectId * Database) :=
  _ ← reachable (coll_db c);
  let oid := Oid (next_oid (coll_db c)) in
  stored ← bson_encode (<["_id" := VObjectId oid]> doc);
  let d := with_documents c (documents c ++ [stored]) in
  Return (oid, {| fault := fault d; collections := collections d;
                  next_oid := N.succ (next_oid d) |}).

Definition has_id (oid : ObjectId) (doc : document) : bool :=
  bool_decide (doc !! "_id" = Some (VObjectId oid)).

(** [$set]: the fields of the patch replace or extend those of the first
    document with the identifier; the others stay. *)
Fixpoint set_first (oid : ObjectId) (patch : document) (docs : list document)
  : option (list document) :=
  match docs with
  | [] => None
  | doc :: rest =>
      if has_id oid doc then Some ((patch ∪ doc) :: rest)
      else cons doc <$> set_first oid patch rest
  end.

Fixpoint remove_first (oid : ObjectId) (docs : list document)
  : option (list document) :=
  match docs with
  | [] => None
  | doc :: rest =>
      if has_id oid doc then Some rest
      else cons doc <$> remove_first oid rest
  end.

(** [coll.update_one({"_id": oid}, {"$set": patch})]: the patch is encoded
    before the server looks for a match.  The result is [matched_count] and
    the store after the update. *)
Definition update_one (c : Collection) (oid : ObjectId) (patch : document)
  : result (Z * Database) :=
  _ ← reachable (coll_db c);
  patch ← bson_encode patch;
  match set_first oid patch (documents c) with
  | Some docs => Return (1, with_documents c docs)
  | None => Return (0, coll_db c)
  end.

(** [coll.delete_one({"_id": oid})]: [deleted_count] and the store after. *)
Definition delete_one (c : Collection) (oid : ObjectId)
  : result (Z * Database) :=
  _ ← reachable (coll_db c);
  match remove_first oid (documents c) with
  | Some docs => Return (1, with_documents c docs)
  | None => Return (0, coll_db c)
  end.

(** [db.list_collection_names()] *)
Definition list_collection_names (d : Database) : result (list string) :=
  _ ← reachable d;
  Return (map fst (map_to_list (collections d))).

(** ** Rendering *)

(** What the Python runtime supplies to [serialize_doc]: [str] on the
    built-in values and [datetime.isoformat], here of a datetime as the
    store hands it back (naive, whole milliseconds). *)
Class PyRuntime := {
  builtin_str : value -> string;
  isoformat : datetime -> string
}.

Section Handlers.
Context `{PyRuntime}.

(** [str(v)] *)
Definition py_str (v : value) : string :=
  match v with
  | VObjectId o => ObjectId_str o
  | VStr s => s
  | _ => builtin_str v
  end.

Definition render_datetime (v : value) : value :=
  match v with
  | VDatetime t => VStr (isoformat t)
  | _ => v
  end.

Definition serialize_doc (doc : document) : document :=
  if decide (doc = ∅) then doc
  else
    let _id := default VNone (doc !! "_id") in
    let doc := delete "_id" doc in
    let doc :=
      if decide (_id ≠ VNone) then <["id" := VStr (py_str _id)]> doc else doc in
    render_datetime <$> doc.

(** ** CRUD utilities *)

Definition ensure_db (db : option Database) : result unit :=
  match db with
  | None =>
      Raise (HTTPException 500
               "Database not available. Configure DATABASE_URL and DATABASE_NAME.")
  | Some _ => Return tt
  end.

Definition collection (db : option Database) (name : string) : result Collection :=
  _ ← ensure_db db;
  match db with
  | Some d => Return (db_get d name)
  | None => Raise (TypeError "'NoneType' object is not subscriptable")
  end.

(** [if limit:] on an [Optional[int]] *)
Definition truthy (limit : option Z) : bool :=
  match limit with
  | Some n => negb (n =? 0)
  | None => false
  end.

(** [Depends(require_admin)]: the dependency runs before the handler. *)
Definition admin_route {A} (cfg : Settings) (now : datetime)
    (credentials : token) (handler : result A) : result A :=
  _ ← require_admin cfg now credentials;
  handler.

(** ** Projects *)

Definition list_projects (db : option Database) (limit : option Z)
  : result (list document) :=
  c ← collection db "project";
  let cur := Cursor_sort (find c) "created_at" (-1) in
  let cur := if truthy limit then Cursor_limit cur (default 0 limit) else cur in
  docs ← Cursor_iter cur;
  Return (map serialize_doc docs).

Definition get_project_by_slug (db : option Database) (slug : string)
  : result document :=
  c ← collection db "project";
  doc ← find_one c "slug" (VStr slug);
  match doc with
  | Some d =>
      if decide (d = ∅) then Raise (HTTPException 404 "Project not found")
      else Return (serialize_doc d)
  | None => Raise (HTTPException 404 "Project not found")
  end.

Definition create_project (db : option Database) (now : datetime)
    (data : Project.t) : result (document * Database) :=
  let doc := Project.model_dump data in
  let doc := <["created_at" := VDatetime now]> doc in
  let doc := <["updated_at" := VDatetime now]> doc in
  c ← collection db "project";
  res ← insert_one c doc;
  Return ({["id" := VStr (ObjectId_str res.1)]}, res.2).

Definition update_project (db : option Database) (now : datetime)
    (id : string) (data : Project.t) : result (document * Database) :=
  c ← collection db "project";
  oid ← ObjectId_new id;
  res ← update_one c oid (<["updated_at" := VDatetime now]> (Project.model_dump data));
  if res.1 =? 0 then Raise (HTTPException 404 "Not found")
  else Return ({["ok" := VBool true]}, res.2).

Definition delete_project (db : option Database) (id : string)
  : result (document * Database) :=
  c ← collection db "project";
  oid ← ObjectId_new id;
  res ← delete_one c oid;
  if res.1 =? 0 then Raise (HTTPException 404 "Not found")
  else Return ({["ok" := VBool true]}, res.2).

(** ** Blog *)

Definition list_blog (db : option Database) (limit : option Z)
  : result (list document) :=
  c ← collection db "blogpost";
  let cur := Cursor_sort (find c) "created_at" (-1) in
  let cur := if truthy limit then Cursor_limit cur (default 0 limit) else cur in
  docs ← Cursor_iter cur;
  Return (map serialize_doc docs).

Definition get_post_by_slug (db : option Database) (slug : string)
  : result document :=
  c ← collection db "blogpost";
  doc ← find_one c "slug" (VStr slug);
  match doc with
  | Some d =>
      if decide (d = ∅) then Raise (HTTPException 404 "Post not found")
      else Return (serialize_doc d)
  | None => Raise (HTTPException 404 "Post not found")
  end.

Definition create_post (db : option Database) (now : datetime)
    (data : BlogPost.t) : result (document * Database) :=
  let doc := BlogPost.model_dump data in
  let doc := <["created_at" := VDatetime now]> doc in
  let doc := <["updated_at" := VDatetime now]> doc in
  c ← collection db "blogpost";
  res ← insert_one c doc;
  Return ({["id" := VStr (ObjectId_str res.1)]}, res.2).

Definition update_post (db : option Database) (now : datetime)
    (id : string) (data : BlogPost.t) : result (document * Database) :=
  c ← collection db "blogpost";
  oid ← ObjectId_new id;
  res ← update_one c oid (<["updated_at" := VDatetime now]> (BlogPost.model_dump data));
  if res.1 =? 0 then Raise (HTTPException 404 "Not found")
  else Return ({["ok" := VBool true]}, res.2).

Definition delete_post (db : option Database) (id : string)
  : result (document * Database) :=
  c ← collection db "blogpost";
  oid ← ObjectId_new id;
  res ← delete_one c oid;
  if res.1 =? 0 then Raise (HTTPException 404 "Not found")
  else Return ({["ok" := VBool true]}, res.2).

(** ** Tech stack *)

Definition list_tech (db : option Database) : result (list document) :=
  c ← collection db "techitem";
  let cur := Cursor_sort (find c) "name" 1 in
  docs ← Cursor_iter cur;
  Return (map serialize_doc docs).

Definition create_tech (db : option Database) (now : datetime)
    (data : TechItem.t) : result (document * Database) :=
  let doc := TechItem.model_dump data in
  let doc := <["created_at" := VDatetime now]> doc in
  let doc := <["updated_at" := VDatetime now]> doc in
  c ← collection db "techitem";
  res ← insert_one c doc;
  Return ({["id" := VStr (ObjectId_str res.1)]}, res.2).

Definition update_tech (db : option Database) (now : datetime)
    (id : string) (data : TechItem.t) : result (document * Database) :=
  c ← collection db "techitem";
  oid ← ObjectId_new id;
  res ← update_one c oid (<["updated_at" := VDatetime now]> (TechItem.model_dump data));
  if res.1 =? 0 then Raise (HTTPException 404 "Not found")
  else Return ({["ok" := VBool true]}, res.2).

Definition delete_tech (db : option Database) (id : string)
  : result (document * Database) :=
  c ← collection db "techitem";
  oid ← ObjectId_new id;
  res ← delete_one c oid;
  if res.1 =? 0 then Raise (HTTPException 404 "Not found")
  else Return ({["ok" := VBool true]}, res.2).

(** ** Public home helpers *)

Record HomeData := {
  projects : list document;
  posts : list document;
  tech : list document
}.

Definition home_data (db : option Database) : result HomeData :=
  c ← collection db "project";
  projects ← Cursor_iter (Cursor_limit (Cursor_sort (find c) "created_at" (-1)) 6);
  c ← collection db "blogpost";
  posts ← Cursor_iter (Cursor_limit (Cursor_sort (find c) "created_at" (-1)) 3);
  c ← collection db "techitem";
  tech ← Cursor_iter (Cursor_sort (find c) "name" 1);
  Return {| projects := map serialize_doc projects;
            posts := map serialize_doc posts;
            tech := map serialize_doc tech |}.

(** [str(e)].  A string is its sequence of bytes, so the 80 of
    [test_database] counts bytes; they are the characters of an ASCII
    message. *)
Definition exn_str (e : exn) : string :=
  match e with
  | HTTPException _ detail => detail
  | ExpiredSignatureError => "Signature has expired"
  | InvalidTokenError msg | InvalidId msg | ValueError msg
  | TypeError msg | PyMongoError msg | InvalidDocument msg
  | OverflowError msg => msg
  end.

(** The [try] block of [test_database]: the status object as the block
    leaves it, and the exception it raised, if any. *)
Definition test_database_try (db : option Database) (status_obj : document)
  : document * option exn :=
  match db with
  | Some d =>
      let status_obj := <["database" := VStr "✅ Available"]> status_obj in
      let status_obj := <["connection_status" := VStr "Connected"]> status_obj in
      match list_collection_names d with
      | Return names => (<["collections" := VList names]> status_obj, None)
      | Raise e => (status_obj, Some e)
      end
  | None => (<["database" := VStr "⚠️ Not configured"]> status_obj, None)
  end.

Definition test_database (db : option Database) : result document :=
  let status_obj : document :=
    <["backend" := VStr "✅ Running"]>
    (<["database" := VStr "❌ Not Available"]>
    (<["connection_status" := VStr "Not Connected"]> ∅)) in
  let '(status_obj, raised) := test_database_try db status_obj in
  let status_obj :=
    match raised with
    | Some e => <["database" := VStr ("Error: " +:+ substring 0 80 (exn_str e))]> status_obj
    | None => status_obj
    end in
  Return status_obj.

End Handlers.

(** The encoder refused the document: the call raised and nothing was
    sent to the store. *)
Definition refused {A} (r : result A) : Prop :=
  exists msg, r = Raise (InvalidDocument msg) \/ r = Raise (OverflowError msg).

(** What a create handler answering [r] for the dump [dump] did to the
    collection [name] of store [d]: it appended one document, the dump with
    the store's identifier and both stamps at the clock reading cut to the
    millisecond, and returned the identifier as a string. *)
Definition created (d : Database) (name : string) (now : datetime)
    (dump : document) (r : result (document * Database)) : Prop :=
  exists (doc : document) (d' : Database),
    r = Return ({["id" := VStr (ObjectId_str (Oid (next_oid d)))]}, d')
    /\ documents (db_get d' name) = documents (db_get d name) ++ [doc]
    /\ doc !! "_id" = Some (VObjectId (Oid (next_oid d)))
    /\ doc !! "created_at" = Some (VDatetime (to_millis now))
    /\ doc !! "updated_at" = Some (VDatetime (to_millis now))
    /\ (forall k, k ≠ "_id" -> k ≠ "created_at" -> k ≠ "updated_at" ->
         doc !! k = dump !! k).

(** The document a successful create left last in the collection carries
    equal stamps. *)
Definition created_with_equal_stamps (name : string)
    (r : result (document * Database)) : Prop :=
  exists (resp doc : document) (d' : Database) (t : datetime),
    r = Return (resp, d')
    /\ last (documents (db_get d' name)) = Some doc
    /\ doc !! "created_at" = Some (VDatetime t)
    /\ doc !! "updated_at" = doc !! "created_at".

(** The shape of a schema dump: no [_id], optional datetimes under the two
    stamps, and no datetime anywhere else. *)
Definition dump_shaped (dump : document) : Prop :=
  dump !! "_id" = None
  /\ (exists o, dump !! "created_at" = Some (opt_datetime o))
  /\ (exists o, dump !! "updated_at" = Some (opt_datetime o))
  /\ (forall k v, dump !! k = Some v -> k ≠ "created_at" -> k ≠ "updated_at" ->
        bson_round v = v).

(** ** Sample data *)

Definition sample_project : Project.t :=
  {| Project.title := "X"; Project.slug := "x"; Project.summary := "s";
     Project.description := None; Project.tech := []; Project.role := None;
     Project.timeline := None; Project.logo_url := None;
     Project.demo_url := None; Project.repo_url := None;
     Project.tags := []; Project.featured := false;
     Project.created_at := None; Project.updated_at := None |}.


Definition sample_tech : TechItem.t :=
  {| TechItem.name := "Rocq"; TechItem.category := None;
     TechItem.level := None; TechItem.icon := None;
     TechItem.created_at := None; TechItem.updated_at := None |}.

Definition empty_store : Database :=
  {| fault := None; collections := ∅; next_oid := 255 |}.

(** A project created at clock reading 1000, as [create_project] stores it. *)
Definition stored_project : document :=
  <["_id" := VObjectId (Oid 255)]>
    (<["updated_at" := VDatetime 1000]>
       (<["created_at" := VDatetime 1000]> (Project.model_dump sample_project))).

Definition sample_store : Database :=
  {| fault := None;
     collections := {["project" := [stored_project]]};
     next_oid := 256 |}.

Definition sample_id : string := "0000000000000000000000ff".

(** A validated project body with a logo URL. *)
Definition url_project : Project.t :=
  {| Project.title := "X"; Project.slug := "x"; Project.summary := "s";
     Project.description := None; Project.tech := []; Project.role := None;
     Project.timeline := None;
     Project.logo_url := Some "https://example.com/logo.png";
     Project.demo_url := None; Project.repo_url := None;
     Project.tags := []; Project.featured := false;
     Project.created_at := None; Project.updated_at := None |}.

(** A token signed with the server's secret whose role is not "admin". *)
Definition user_token : token :=
  Signed {["role" := VStr "user"]} "supersecret".

(** What a [$set] of a dump followed by ["updated_at": now] leaves in the
    matched document (the store keeps datetimes to the millisecond). *)
Definition set_outcome (now : datetime) (sent_created_at : option datetime)
    (doc doc' : document) : Prop :=
  doc' !! "_id" = doc !! "_id"
  /\ doc' !! "updated_at" = Some (VDatetime (to_millis now))
  /\ doc' !! "created_at" = Some (bson_round (opt_datetime sent_created_at)).

(** ** More of the declared validator, and a runtime for the samples *)

(** [PyObjectId.validate(v)] on any value: an [ObjectId] passes as it is,
    a string goes through [ObjectId.is_valid], which is false on every
    other value here. *)
Definition PyObjectId_validate_value (v : value) : result ObjectId :=
  match v with
  | VObjectId o => Return o
  | VStr s => PyObjectId_validate s
  | _ => Raise (ValueError "Invalid ObjectId")
  end.

(** A runtime that renders every built-in value and every date as the
    empty string: enough to run the read handlers on the samples. *)
Definition blank_runtime : PyRuntime :=
  {| builtin_str := fun _ => ""; isoformat := fun _ => "" |}.

Definition other_id : string := "0000000000000000000000fe".

(** The filter of a lookup by slug. *)
Definition has_slug (slug : string) (doc : document) : bool :=
  bool_decide (doc !! "slug" = Some (VStr slug)).

(** * Properties *)

Ltac handler_steps :=
  repeat first
    [ progress simpl
    | progress unfold mbind, result_bind, mret, result_ret ].


(** ** The sort order of the store *)

Lemma string_compare_trans (s1 s2 s3 : string) :
  String.compare s1 s2 ≠ Gt -> String.compare s2 s3 ≠ Gt ->
  String.compare s1 s3 ≠ Gt.
Proof.
  revert s2 s3.
  induction s1 as [|c1 s1 IH]; intros [|c2 s2] [|c3 s3]; simpl; try done.
  unfold Ascii.compare.
  destruct (N.compare_spec (N_of_ascii c1) (N_of_ascii c2)),
           (N.compare_spec (N_of_ascii c2) (N_of_ascii c3)),
           (N.compare_spec (N_of_ascii c1) (N_of_ascii c3));
    try done; try lia.
  apply IH.
Qed.

Lemma string_leb_trans (s1 s2 s3 : string) :
  String.leb s1 s2 = true -> String.leb s2 s3 = true -> String.leb s1 s3 = true.
Proof.
  unfold String.leb. intros H12 H23.
  pose proof (string_compare_trans s1 s2 s3) as Ht.
  destruct (String.compare s1 s2), (String.compare s2 s3), (String.compare s1 s3);
    try done; exfalso; apply Ht; done.
Qed.

Lemma bson_leb_total (a b : value) : bson_leb a b = true \/ bson_leb b a = true.
Proof.
  destruct a as [| | | | | |[x]|ux], b as [| | | | | |[y]|uy]; simpl;
    try (left; reflexivity); try (right; reflexivity).
  - destruct b, b0; simpl; auto.
  - destruct (Z.leb_spec n n0); [by left|right]. apply Z.leb_le. lia.
  - apply String.leb_total.
  - destruct (Z.leb_spec t t0); [by left|right]. apply Z.leb_le. lia.
  - destruct (N.leb_spec x y); [by left|right]. apply N.leb_le. lia.
Qed.

Lemma bson_leb_rank (a b : value) :
  bson_leb a b = true -> bson_rank a <= bson_rank b.
Proof.
  destruct a as [| | | | | |[x]|ux], b as [| | | | | |[y]|uy]; simpl; intros Hab;
    try lia; try (apply Z.leb_le in Hab; simpl in Hab; lia).
Qed.

Lemma bson_leb_trans (a b c : value) :
  bson_leb a b = true -> bson_leb b c = true -> bson_leb a c = true.
Proof.
  intros Hab Hbc.
  pose proof (bson_leb_rank _ _ Hab) as Rab.
  pose proof (bson_leb_rank _ _ Hbc) as Rbc.
  destruct a as [| | | | | |[x]|ux], b as [| | | | | |[y]|uy], c as [| | | | | |[z]|uz];
    simpl in *; try reflexivity; try lia;
    repeat match goal with
           | b : bool |- _ => destruct b
           | E : (_ <=? _) = true |- _ => apply Z.leb_le in E
           | E : (_ <=? _)%N = true |- _ => apply N.leb_le in E
           end;
    try done;
    first [ apply Z.leb_le; lia | apply N.leb_le; lia
          | eauto using string_leb_trans ].
Qed.

#[global] Instance sort_le_total key direction : Total (sort_le key direction).
Proof.
  intros d1 d2. unfold sort_le. destruct (direction =? 1).
  - apply bson_leb_total.
  - destruct (bson_leb_total (sort_key key d1) (sort_key key d2)); auto.
Qed.

#[global] Instance sort_le_trans key direction :
  Transitive (sort_le key direction).
Proof.
  intros d1 d2 d3. unfold sort_le. destruct (direction =? 1).
  - apply bson_leb_trans.
  - intros ? ?. eapply bson_leb_trans; eauto.
Qed.

Lemma apply_sort_sorted key direction docs :
  StronglySorted (sort_le key direction)
    (apply_sort (Some (key, direction)) docs).
Proof. apply StronglySorted_merge_sort; apply _. Qed.

Lemma apply_sort_perm s docs : apply_sort s docs ≡ₚ docs.
Proof.
  destruct s as [[key direction]|]; simpl; [|done].
  apply merge_sort_Permutation.
Qed.

(** ** The store *)

Lemma set_first_app oid patch (pre post : list document) doc :
  Forall (fun x => has_id oid x = false) pre ->
  has_id oid doc = true ->
  set_first oid patch (pre ++ doc :: post) = Some (pre ++ (patch ∪ doc) :: post).
Proof.
  intros Hpre Hdoc. induction Hpre as [|x pre Hx _ IH]; simpl.
  - by rewrite Hdoc.
  - by rewrite Hx, IH.
Qed.

Lemma ObjectId_new_invalid (id : string) :
  ObjectId_is_valid id = false -> ObjectId_new id = Raise (InvalidId id).
Proof.
  unfold ObjectId_is_valid, ObjectId_new.
  destruct (String.length id =? 24)%nat; simpl; [|done].
  destruct (parse_hex 0 id) as [n|]; [|done].
  intros Hv. apply bool_decide_eq_false in Hv. destruct Hv. by exists n.
Qed.

Lemma substring_length (m : nat) (s : string) :
  (String.length (substring 0 m s) <= m)%nat.
Proof.
  revert s. induction m as [|m IH]; intros [|c s]; simpl; try lia.
  specialize (IH s). lia.
Qed.

(** ** The encoder *)

Lemma bson_encode_encodable (doc : document) :
  encodable doc -> bson_encode doc = Return (bson_round <$> doc).
Proof.
  intros [Hi Hu]. unfold bson_encode. by rewrite !decide_True.
Qed.

Lemma bson_encode_refused (doc : document) :
  ~ encodable doc -> refused (bson_encode doc).
Proof.
  intros Hne. unfold bson_encode, refused.
  destruct (decide (map_Forall (fun _ v => int_fits v = true) doc)) as [Hi|Hi];
    [|eexists; by right].
  destruct (decide (map_Forall (fun _ v => not_url v = true) doc)) as [Hu|Hu];
    [|eexists; by left].
  destruct Hne. by split.
Qed.

Lemma refused_bind {A B} (m : result A) (k : A -> result B) :
  refused m -> refused (m ≫= k).
Proof. intros [msg [-> | ->]]; exists msg; [by left | by right]. Qed.

Lemma encodable_insert (doc : document) k v :
  int_fits v = true -> not_url v = true ->
  encodable doc -> encodable (<[k := v]> doc).
Proof.
  intros Hi Hu [Hdi Hdu]. split; by apply map_Forall_insert_2.
Qed.

Lemma encodable_lookup (doc : document) k v :
  encodable doc -> doc !! k = Some v -> int_fits v = true /\ not_url v = true.
Proof.
  intros [Hi Hu] Hk. split; [by apply (Hi k) | by apply (Hu k)].
Qed.

Lemma encodable_insert_inv (doc : document) k v k' v' :
  k' ≠ k -> doc !! k' = Some v' ->
  encodable (<[k := v]> doc) -> int_fits v' = true /\ not_url v' = true.
Proof.
  intros Hne Hk He. apply (encodable_lookup _ k' v' He).
  by rewrite lookup_insert_ne.
Qed.

Lemma opt_str_encodable o : int_fits (opt_str o) = true /\ not_url (opt_str o) = true.
Proof. by destruct o. Qed.

Lemma opt_datetime_encodable o :
  int_fits (opt_datetime o) = true /\ not_url (opt_datetime o) = true.
Proof. by destruct o. Qed.

Ltac encodable_inserts :=
  repeat (apply encodable_insert;
          [ first [ reflexivity | apply opt_str_encodable
                  | apply opt_datetime_encodable | assumption ]
          | first [ reflexivity | apply opt_str_encodable
                  | apply opt_datetime_encodable | assumption ]
          | ]);
  try (split; apply map_Forall_empty).

Lemma Project_dump_encodable (p : Project.t) :
  Project.storable p <-> encodable (Project.model_dump p).
Proof.
  split.
  - intros (H1 & H2 & H3). unfold Project.model_dump.
    rewrite H1, H2, H3. encodable_inserts.
  - intros He.
    assert (Hu : forall k o, Project.model_dump p !! k = Some (opt_url o) ->
                             o = None).
    { intros k [u|] Hk; [|done].
      by destruct (encodable_lookup _ _ _ He Hk) as [_ ?]. }
    repeat split;
      [apply (Hu "logo_url") | apply (Hu "demo_url") | apply (Hu "repo_url")];
      reflexivity.
Qed.

Lemma BlogPost_dump_encodable (p : BlogPost.t) :
  BlogPost.storable p <-> encodable (BlogPost.model_dump p).
Proof.
  split.
  - intros (Hr & Hc). unfold BlogPost.model_dump. rewrite Hc.
    assert (int_fits (VInt (BlogPost.read_time p)) = true).
    { simpl. apply andb_true_iff. split; [apply Z.leb_le|apply Z.ltb_lt]; lia. }
    encodable_inserts.
  - intros He. split.
    + assert (Hk : BlogPost.model_dump p !! "read_time"
                   = Some (VInt (BlogPost.read_time p))) by reflexivity.
      destruct (encodable_lookup _ _ _ He Hk) as [Hi _]. simpl in Hi.
      apply andb_true_iff in Hi as [H1 H2].
      apply Z.leb_le in H1. apply Z.ltb_lt in H2. lia.
    + assert (Hk : BlogPost.model_dump p !! "cover_url"
                   = Some (opt_url (BlogPost.cover_url p))) by reflexivity.
      destruct (encodable_lookup _ _ _ He Hk) as [_ Hu].
      by destruct (BlogPost.cover_url p).
Qed.

Lemma TechItem_dump_encodable (p : TechItem.t) :
  encodable (TechItem.model_dump p).
Proof. unfold TechItem.model_dump. encodable_inserts. Qed.

(** A stamp added to a dump changes nothing for the encoder. *)
Lemma stamp_encodable (dump : document) k t :
  dump !! k = None \/ (exists o, dump !! k = Some (opt_datetime o)) ->
  encodable (<[k := VDatetime t]> dump) <-> encodable dump.
Proof.
  intros Hk. split.
  - intros He. split; intros j v Hj.
    + destruct (decide (j = k)) as [->|Hne].
      * destruct Hk as [Hk|[o Hk]]; rewrite Hk in Hj; [done|].
        injection Hj as <-. apply opt_datetime_encodable.
      * by apply (encodable_insert_inv dump k (VDatetime t) j v Hne Hj He).
    + destruct (decide (j = k)) as [->|Hne].
      * destruct Hk as [Hk|[o Hk]]; rewrite Hk in Hj; [done|].
        injection Hj as <-. apply opt_datetime_encodable.
      * by apply (encodable_insert_inv dump k (VDatetime t) j v Hne Hj He).
  - by apply encodable_insert.
Qed.

Lemma update_one_matched (d : Database) name oid patch pre doc post :
  fault d = None ->
  encodable patch ->
  documents (db_get d name) = pre ++ doc :: post ->
  Forall (fun x => has_id oid x = false) pre ->
  has_id oid doc = true ->
  update_one (db_get d name) oid patch
  = Return (1, with_documents (db_get d name)
                 (pre ++ ((bson_round <$> patch) ∪ doc) :: post)).
Proof.
  intros Hf He Hdocs Hpre Hdoc. unfold update_one, reachable. simpl.
  rewrite Hf. simpl. rewrite (bson_encode_encodable _ He). simpl.
  rewrite Hdocs.
  by rewrite (set_first_app oid _ pre post doc Hpre Hdoc).
Qed.

Lemma update_one_refused (d : Database) name oid patch :
  fault d = None ->
  ~ encodable patch ->
  refused (update_one (db_get d name) oid patch).
Proof.
  intros Hf He. unfold update_one, reachable. simpl. rewrite Hf. simpl.
  by apply (refused_bind (bson_encode patch)), bson_encode_refused.
Qed.

Lemma set_outcome_intro now sent (dump doc : document) :
  dump !! "_id" = None ->
  dump !! "created_at" = Some (opt_datetime sent) ->
  set_outcome now sent doc
    ((bson_round <$> <["updated_at" := VDatetime now]> dump) ∪ doc).
Proof.
  intros Hid Hc. repeat split.
  - apply lookup_union_r. by rewrite lookup_fmap, lookup_insert_ne, Hid.
  - apply lookup_union_Some_l. by rewrite lookup_fmap, lookup_insert_eq.
  - apply lookup_union_Some_l. by rewrite lookup_fmap, lookup_insert_ne, Hc.
Qed.

(** What an update handler answering [r] did to the document [doc] it
    matched between [pre] and [post] in collection [name]. *)
Lemma updated_intro {A} (d : Database) name now sent oid
    (dump : document) pre doc post (ok : A) :
  fault d = None ->
  encodable dump ->
  dump !! "_id" = None ->
  dump !! "created_at" = Some (opt_datetime sent) ->
  dump !! "updated_at" = None \/ (exists o, dump !! "updated_at" = Some (opt_datetime o)) ->
  documents (db_get d name) = pre ++ doc :: post ->
  Forall (fun x => has_id oid x = false) pre ->
  has_id oid doc = true ->
  exists doc',
    (res ← update_one (db_get d name) oid (<["updated_at" := VDatetime now]> dump);
     if res.1 =? 0 then Raise (HTTPException 404 "Not found")
     else Return (ok, res.2))
    = Return (ok, with_documents (db_get d name) (pre ++ doc' :: post))
    /\ set_outcome now sent doc doc'.
Proof.
  intros Hf He Hid Hc Hu Hdocs Hpre Hdoc.
  eexists. split; [|by apply (set_outcome_intro now sent dump doc)].
  erewrite update_one_matched; [reflexivity|done| |done..].
  by apply stamp_encodable.
Qed.

Lemma update_refused_intro {A} (d : Database) name now oid (dump : document)
    (ok : A) :
  fault d = None ->
  ~ encodable dump ->
  dump !! "updated_at" = None \/ (exists o, dump !! "updated_at" = Some (opt_datetime o)) ->
  refused
    (res ← update_one (db_get d name) oid (<["updated_at" := VDatetime now]> dump);
     if res.1 =? 0 then Raise (HTTPException 404 "Not found")
     else Return (ok, res.2)).
Proof.
  intros Hf He Hu. apply refused_bind, update_one_refused; [done|].
  by rewrite stamp_encodable.
Qed.

(** C1, as the code behaves: an update of an existing document re-stamps
    [updated_at] to the clock reading (which the store keeps to the
    millisecond), keeps [_id], and writes the body's [created_at] over the
    stored one: the null of a body that omits the field, the client's value
    otherwise.  The stored [created_at] does not survive.  (A project or
    post body that the encoder refuses, one with a URL field set or an
    oversized [read_time], makes the handler raise instead.) *)
Theorem update_writes_body_created_at (d : Database) (now : datetime)
    (id : string) (oid : ObjectId) (pre post : list document) (doc : document) :
  fault d = None ->
  ObjectId_new id = Return oid ->
  Forall (fun x => has_id oid x = false) pre ->
  has_id oid doc = true ->
  (forall data, documents (db_get d "project") = pre ++ doc :: post ->
     (Project.storable data ->
      exists doc',
        update_project (Some d) now id data
        = Return ({["ok" := VBool true]},
                  with_documents (db_get d "project") (pre ++ doc' :: post))
        /\ set_outcome now (Project.created_at data) doc doc')
     /\ (~ Project.storable data ->
         refused (update_project (Some d) now id data)))
  /\ (forall data, documents (db_get d "blogpost") = pre ++ doc :: post ->
     (BlogPost.storable data ->
      exists doc',
        update_post (Some d) now id data
        = Return ({["ok" := VBool true]},
                  with_documents (db_get d "blogpost") (pre ++ doc' :: post))
        /\ set_outcome now (BlogPost.created_at data) doc doc')
     /\ (~ BlogPost.storable data ->
         refused (update_post (Some d) now id data)))
  /\ (forall data, documents (db_get d "techitem") = pre ++ doc :: post ->
     exists doc',
       update_tech (Some d) now id data
       = Return ({["ok" := VBool true]},
                 with_documents (db_get d "techitem") (pre ++ doc' :: post))
       /\ set_outcome now (TechItem.created_at data) doc doc').
Proof.
  intros Hf Hid Hpre Hdoc.
  split; [|split]; intros data Hdocs; [split; [intros Hs|intros Hs] ..|].
  - unfold update_project. handler_steps. rewrite Hid.
    apply (updated_intro d "project" now (Project.created_at data) oid);
      try done; [by apply Project_dump_encodable | right; by eexists].
  - unfold update_project. handler_steps. rewrite Hid.
    apply (update_refused_intro d "project" now oid);
      [done | by rewrite <- Project_dump_encodable | right; by eexists].
  - unfold update_post. handler_steps. rewrite Hid.
    apply (updated_intro d "blogpost" now (BlogPost.created_at data) oid);
      try done; [by apply BlogPost_dump_encodable | right; by eexists].
  - unfold update_post. handler_steps. rewrite Hid.
    apply (update_refused_intro d "blogpost" now oid);
      [done | by rewrite <- BlogPost_dump_encodable | right; by eexists].
  - unfold update_tech. handler_steps. rewrite Hid.
    apply (updated_intro d "techitem" now (TechItem.created_at data) oid);
      try done; [apply TechItem_dump_encodable | right; by eexists].
Qed.

Lemma update_writes_body_created_at_witness :
  stored_project !! "created_at" = Some (VDatetime 1000)
  /\ exists doc',
       update_project (Some sample_store) 2000 sample_id sample_project
       = Return ({["ok" := VBool true]},
                 with_documents (db_get sample_store "project") ([] ++ doc' :: []))
       /\ set_outcome 2000 None stored_project doc'.
Proof.
  split; [reflexivity|].
  destruct (update_writes_body_created_at sample_store 2000 sample_id (Oid 255)
              [] [] stored_project) as [Hp _].
  - reflexivity.
  - vm_compute. reflexivity.
  - constructor.
  - vm_compute. reflexivity.
  - exact (proj1 (Hp sample_project eq_refl)
             (conj eq_refl (conj eq_refl eq_refl))).
Defined.

(** The same update, evaluated: the project stored with [created_at] 1000
    holds a null [created_at] after a body that does not mention the field. *)
Example update_project_nulls_created_at :
  exists d',
    update_project (Some sample_store) 2000 sample_id sample_project
    = Return ({["ok" := VBool true]}, d')
    /\ (fun doc => doc !! "created_at") <$> documents (db_get d' "project")
       = [Some VNone]
    /\ (fun doc => doc !! "updated_at") <$> documents (db_get d' "project")
       = [Some (VDatetime 2000)].
Proof. eexists. split; [reflexivity|]. split; vm_compute; reflexivity. Qed.

(** C2, as the code behaves: with a store configured, an update or delete
    whose path identifier is not a valid ObjectId string raises bson's
    [InvalidId], which no handler catches; the caller gets status 500, not a
    validation error. *)
Theorem invalid_id_is_uncaught (d : Database) (now : datetime) (id : string) :
  ObjectId_is_valid id = false ->
  (forall data, update_project (Some d) now id data = Raise (InvalidId id))
  /\ (forall data, update_post (Some d) now id data = Raise (InvalidId id))
  /\ (forall data, update_tech (Some d) now id data = Raise (InvalidId id))
  /\ delete_project (Some d) id = Raise (InvalidId id)
  /\ delete_post (Some d) id = Raise (InvalidId id)
  /\ delete_tech (Some d) id = Raise (InvalidId id)
  /\ fails_with InternalServerError (delete_project (Some d) id)
  /\ ~ fails_with ValidationError (delete_project (Some d) id).
Proof.
  intros Hv. apply ObjectId_new_invalid in Hv.
  assert (Hd : delete_project (Some d) id = Raise (InvalidId id)).
  { unfold delete_project. handler_steps. by rewrite Hv. }
  repeat apply conj; try intros data;
    try (unfold update_project, update_post, update_tech, delete_post,
           delete_tech; handler_steps; by rewrite Hv);
    try exact Hd.
  - rewrite Hd. reflexivity.
  - rewrite Hd in data. discriminate data.
Qed.

Lemma invalid_id_is_uncaught_witness :
  delete_project (Some sample_store) "not-an-id" = Raise (InvalidId "not-an-id")
  /\ update_project (Some sample_store) 2000 "not-an-id" sample_project
     = Raise (InvalidId "not-an-id")
  /\ http_status (delete_project (Some sample_store) "not-an-id") = 500.
Proof.
  destruct (invalid_id_is_uncaught sample_store 2000 "not-an-id" eq_refl)
    as (Hu & _ & _ & Hd & _).
  split; [exact Hd|]. split; [exact (Hu sample_project)|].
  rewrite Hd. reflexivity.
Defined.

(** The validator the source declares rejects the same identifier with a
    [ValueError]. *)
Example PyObjectId_rejects :
  PyObjectId_validate "not-an-id" = Raise (ValueError "Invalid ObjectId").
Proof. reflexivity. Qed.

(** ** The store is not configured *)

(** C3 as stated fails: without a store the handlers answer with status
    500, which is not the service-unavailable condition. *)
Lemma unconfigured_store_is_not_service_unavailable :
  http_status (collection None "project") = 500
  /\ ~ fails_with ServiceUnavailable (collection None "project")
  /\ ~ fails_with ServiceUnavailable (create_tech None 1000 sample_tech)
  /\ ~ fails_with ServiceUnavailable (delete_project None sample_id).
Proof. repeat apply conj; [reflexivity | discriminate..]. Qed.

(** C3, amended: when no store connection was configured, every data-route
    handler fails with the HTTPException of status 500 that [ensure_db]
    raises, which is not NotFound; [collection] makes the check on every
    access, for whatever name, and before the handler looks at its other
    arguments. *)
Theorem unconfigured_store_raises_500 `{PyRuntime} :
  let e := HTTPException 500
             "Database not available. Configure DATABASE_URL and DATABASE_NAME." in
  (forall name, collection None name = Raise e)
  /\ (forall d name, collection (Some d) name = Return (db_get d name))
  /\ (forall limit, list_projects None limit = Raise e)
  /\ (forall slug, get_project_by_slug None slug = Raise e)
  /\ (forall now data, create_project None now data = Raise e)
  /\ (forall now id data, update_project None now id data = Raise e)
  /\ (forall id, delete_project None id = Raise e)
  /\ (forall limit, list_blog None limit = Raise e)
  /\ (forall slug, get_post_by_slug None slug = Raise e)
  /\ (forall now data, create_post None now data = Raise e)
  /\ (forall now id data, update_post None now id data = Raise e)
  /\ (forall id, delete_post None id = Raise e)
  /\ list_tech None = Raise e
  /\ (forall now data, create_tech None now data = Raise e)
  /\ (forall now id data, update_tech None now id data = Raise e)
  /\ (forall id, delete_tech None id = Raise e)
  /\ home_data None = Raise e
  /\ (forall name, fails_with InternalServerError (collection None name))
  /\ (forall name, ~ fails_with NotFound (collection None name)).
Proof.
  intros e. repeat apply conj; intros; try reflexivity.
  discriminate.
Qed.

(** ** Tokens *)

Lemma require_admin_cases (cfg : Settings) (now : datetime) (tok : token) :
  require_admin cfg now tok =
  match jwt_decode tok (JWT_SECRET cfg) now with
  | Return data =>
      if decide (data !! "role" = Some (VStr "admin")) then Return data
      else Raise (HTTPException 401 "Invalid token")
  | Raise ExpiredSignatureError => Raise (HTTPException 401 "Token expired")
  | Raise _ => Raise (HTTPException 401 "Invalid token")
  end.
Proof.
  unfold require_admin. handler_steps.
  destruct (jwt_decode tok (JWT_SECRET cfg) now) as [data|e]; simpl.
  - repeat case_decide; try done.
  - by destruct e.
Qed.

(** No token makes [require_admin] answer 403: the [HTTPException] raised
    for a wrong role is caught by the [except Exception] clause of the same
    [try]. *)
Lemma require_admin_never_forbidden (cfg : Settings) (now : datetime)
    (tok : token) :
  ~ fails_with Forbidden (require_admin cfg now tok).
Proof.
  rewrite require_admin_cases.
  destruct (jwt_decode tok (JWT_SECRET cfg) now) as [data|e].
  - case_decide; [tauto | discriminate].
  - destruct e; discriminate.
Qed.

Lemma require_admin_rejects_decode_errors (cfg : Settings) (now : datetime)
    (tok : token) (e : exn) :
  jwt_decode tok (JWT_SECRET cfg) now = Raise e ->
  fails_with Unauthorized (require_admin cfg now tok).
Proof.
  intros Hd. rewrite require_admin_cases, Hd. by destruct e.
Qed.

Lemma require_admin_accepts_admin (cfg : Settings) (now : datetime)
    (tok : token) (data : gmap string value) :
  jwt_decode tok (JWT_SECRET cfg) now = Return data ->
  data !! "role" = Some (VStr "admin") ->
  require_admin cfg now tok = Return data.
Proof.
  intros Hd Hr. rewrite require_admin_cases, Hd. by case_decide.
Qed.

(** C4, as the code behaves: a token that decodes successfully and whose
    role claim is not "admin" is answered with 401 "Invalid token", the
    Unauthorized condition, and not with Forbidden. *)
Theorem wrong_role_is_unauthorized (cfg : Settings) (now : datetime)
    (tok : token) (data : gmap string value) :
  jwt_decode tok (JWT_SECRET cfg) now = Return data ->
  data !! "role" ≠ Some (VStr "admin") ->
  require_admin cfg now tok = Raise (HTTPException 401 "Invalid token")
  /\ fails_with Unauthorized (require_admin cfg now tok)
  /\ ~ fails_with Forbidden (require_admin cfg now tok).
Proof.
  intros Hd Hr. rewrite require_admin_cases, Hd.
  case_decide; [done|]. repeat apply conj; [reflexivity..|discriminate].
Qed.

Lemma wrong_role_is_unauthorized_witness :
  jwt_decode user_token "supersecret" 5 = Return {["role" := VStr "user"]}
  /\ require_admin default_settings 5 user_token
     = Raise (HTTPException 401 "Invalid token").
Proof.
  split; [reflexivity|].
  apply (wrong_role_is_unauthorized default_settings 5 user_token
           {["role" := VStr "user"]}).
  - reflexivity.
  - intros E. vm_compute in E. discriminate E.
Defined.

(** The token a login issues at clock reading 0 passes the admin
    dependency until its expiry; on an admin route an invalid identifier
    then reaches the handler and escapes it, and a token of another role is
    turned away with 401 before the handler runs. *)
Example admin_route_outcomes :
  let tok := create_token default_settings 0 {["role" := VStr "admin"]} in
  login default_settings 0 {| password := "admin123" |}
  = Return (TokenResponse_new tok)
  /\ admin_route default_settings 5 tok
       (delete_project (Some sample_store) "not-an-id")
     = Raise (InvalidId "not-an-id")
  /\ admin_route default_settings (8 * 3600 * 1000000) tok
       (delete_project (Some sample_store) sample_id)
     = Raise (HTTPException 401 "Token expired")
  /\ admin_route default_settings 5 user_token
       (delete_project (Some sample_store) sample_id)
     = Raise (HTTPException 401 "Invalid token")
  /\ admin_route default_settings 5 (Malformed "abc")
       (delete_project (Some sample_store) sample_id)
     = Raise (HTTPException 401 "Invalid token").
Proof. repeat apply conj; vm_compute; reflexivity. Qed.

Lemma jwt_encode_exp (t : datetime) (key : string) :
  jwt_encode (<["exp" := VDatetime t]> {["role" := VStr "admin"]}) key
  = Signed (<["exp" := VInt (t / 1000000)]> {["role" := VStr "admin"]}) key.
Proof. reflexivity. Qed.

(** C5: a login with a password other than the configured one fails with
    401 Unauthorized; with the configured one it returns the token signed
    with the server's secret whose claims are exactly the role "admin" and
    an expiry 8 hours after the clock reading (as a NumericDate, whole
    seconds), with the token type "bearer". *)
Theorem login_issues_admin_token (cfg : Settings) (now : datetime)
    (req : LoginRequest) :
  login cfg now req =
    (if decide (password req = ADMIN_PASSWORD cfg) then
       Return {| access_token :=
                   Signed (<["exp" := VInt (now / 1000000 + 8 * 3600)]>
                             {["role" := VStr "admin"]})
                          (JWT_SECRET cfg);
                 token_type := "bearer" |}
     else Raise (HTTPException 401 "Invalid credentials"))
  /\ (if decide (password req = ADMIN_PASSWORD cfg) then
        create_token cfg now {["role" := VStr "admin"]}
        = jwt_encode (<["exp" := VDatetime (now + 8 * 3600 * 1000000)]>
                        {["role" := VStr "admin"]}) (JWT_SECRET cfg)
      else fails_with Unauthorized (login cfg now req)).
Proof.
  unfold login. split.
  - repeat case_decide; try done.
    unfold TokenResponse_new, create_token.
    rewrite jwt_encode_exp.
    unfold timedelta_minutes, TOKEN_EXPIRE_MINUTES.
    replace (now + 60 * 8 * 60 * 1000000) with (now + 28800 * 1000000) by lia.
    rewrite Z.div_add by lia. reflexivity.
  - repeat case_decide; done.
Qed.

(** ** Reads *)

Lemma StronglySorted_take {A} (R : relation A) (n : nat) (l : list A) :
  StronglySorted R l -> StronglySorted R (take n l).
Proof.
  intros Hl. rewrite <- (take_drop n l) in Hl.
  by apply StronglySorted_app_1_l in Hl.
Qed.

Lemma take_before_drop {A} (R : relation A) (n : nat) (l : list A) x y :
  StronglySorted R l -> x ∈ take n l -> y ∈ drop n l -> R x y.
Proof.
  intros Hl Hx Hy. rewrite <- (take_drop n l) in Hl.
  by apply (StronglySorted_app_1_elem_of R (take n l) (drop n l)).
Qed.

(** C6: with a reachable store, whatever the three collections hold,
    [/home] returns the first 6 of the projects in descending [created_at]
    order, the first 3 of the posts in the same order, and every tech item
    in ascending [name] order.  Each returned list is sorted, the returned
    projects and posts precede the omitted ones in the order, and the tech
    list is a permutation of its collection. *)
Theorem home_data_limits_and_orders `{PyRuntime}
    (cs : gmap string (list document)) (n : N) :
  let d := {| fault := None; collections := cs; next_oid := n |} in
  let all_projects :=
    apply_sort (Some ("created_at", -1)) (documents (db_get d "project")) in
  let all_posts :=
    apply_sort (Some ("created_at", -1)) (documents (db_get d "blogpost")) in
  let all_tech :=
    apply_sort (Some ("name", 1)) (documents (db_get d "techitem")) in
  home_data (Some d)
  = Return {| projects := map serialize_doc (take 6 all_projects);
              posts := map serialize_doc (take 3 all_posts);
              tech := map serialize_doc all_tech |}
  /\ (length (map serialize_doc (take 6 all_projects)) <= 6)%nat
  /\ (length (map serialize_doc (take 3 all_posts)) <= 3)%nat
  /\ length (map serialize_doc all_tech)
     = length (documents (db_get d "techitem"))
  /\ all_projects ≡ₚ documents (db_get d "project")
  /\ all_posts ≡ₚ documents (db_get d "blogpost")
  /\ all_tech ≡ₚ documents (db_get d "techitem")
  /\ StronglySorted (sort_le "created_at" (-1)) (take 6 all_projects)
  /\ StronglySorted (sort_le "created_at" (-1)) (take 3 all_posts)
  /\ StronglySorted (sort_le "name" 1) all_tech
  /\ (forall x y, x ∈ take 6 all_projects -> y ∈ drop 6 all_projects ->
        sort_le "created_at" (-1) x y)
  /\ (forall x y, x ∈ take 3 all_posts -> y ∈ drop 3 all_posts ->
        sort_le "created_at" (-1) x y).
Proof.
  intros d all_projects all_posts all_tech.
  repeat apply conj.
  - reflexivity.
  - rewrite length_map, length_take. lia.
  - rewrite length_map, length_take. lia.
  - rewrite length_map. apply Permutation_length, apply_sort_perm.
  - apply apply_sort_perm.
  - apply apply_sort_perm.
  - apply apply_sort_perm.
  - apply StronglySorted_take, apply_sort_sorted.
  - apply StronglySorted_take, apply_sort_sorted.
  - apply apply_sort_sorted.
  - intros x y. apply take_before_drop, apply_sort_sorted.
  - intros x y. apply take_before_drop, apply_sort_sorted.
Qed.

Lemma substring_prefix (m : nat) (s : string) :
  String.prefix (substring 0 m s) s = true.
Proof.
  revert s. induction m as [|m IH]; intros [|c s]; simpl; try done.
  destruct (ascii_dec c c); [apply IH | done].
Qed.

(** C7: [/test] returns a status object for every store, configured or
    not, reachable or not.  When the store raises, the object's [database]
    entry is "Error: " followed by the first 80 characters of the error
    message, at most 80 characters, and nothing is raised. *)
Theorem test_database_never_raises :
  (forall db, exists status_obj,
      test_database db = Return status_obj
      /\ status_obj !! "backend" = Some (VStr "✅ Running")
      /\ is_Some (status_obj !! "database")
      /\ is_Some (status_obj !! "connection_status"))
  /\ (forall msg cs n, exists status_obj,
        test_database (Some {| fault := Some msg; collections := cs;
                               next_oid := n |})
        = Return status_obj
        /\ status_obj !! "database"
           = Some (VStr ("Error: " +:+ substring 0 80 msg))
        /\ (String.length (substring 0 80 msg) <= 80)%nat
        /\ String.prefix (substring 0 80 msg) msg = true).
Proof.
  split.
  - intros [d|]; [|eexists; split; [reflexivity|]; by eauto].
    unfold test_database, test_database_try, list_collection_names, reachable.
    destruct (fault d) as [msg|]; handler_steps;
      (eexists; split; [reflexivity|]); by eauto.
  - intros msg cs n. eexists. split; [reflexivity|].
    split; [by rewrite lookup_insert_eq|].
    split; [apply substring_length | apply substring_prefix].
Qed.

(** ** Creates *)

Lemma id_encodable (doc : document) (o : ObjectId) :
  doc !! "_id" = None ->
  encodable (<["_id" := VObjectId o]> doc) <-> encodable doc.
Proof.
  intros Hid. split; [|by apply encodable_insert].
  intros He. split; intros j v Hj;
    (destruct (decide (j = "_id")) as [->|Hne]; [by rewrite Hid in Hj|]);
    by apply (encodable_insert_inv doc "_id" (VObjectId o) j v Hne Hj He).
Qed.

Lemma insert_one_stored (d : Database) (name : string) (doc : document) :
  fault d = None ->
  encodable doc ->
  exists d',
    insert_one (db_get d name) doc = Return (Oid (next_oid d), d')
    /\ fault d' = None
    /\ documents (db_get d' name)
       = documents (db_get d name)
         ++ [bson_round <$> <["_id" := VObjectId (Oid (next_oid d))]> doc].
Proof.
  intros Hf He. unfold insert_one, reachable. simpl. rewrite Hf. simpl.
  rewrite bson_encode_encodable by (by apply encodable_insert).
  eexists. split; [reflexivity|]. split; [reflexivity|].
  unfold documents. simpl. by rewrite lookup_insert_eq.
Qed.

Lemma insert_one_refused (d : Database) (name : string) (doc : document) :
  fault d = None ->
  doc !! "_id" = None ->
  ~ encodable doc ->
  refused (insert_one (db_get d name) doc).
Proof.
  intros Hf Hid He. unfold insert_one, reachable. simpl. rewrite Hf. simpl.
  apply (refused_bind (bson_encode _)), bson_encode_refused.
  by rewrite id_encodable.
Qed.

Lemma opt_str_round o : bson_round (opt_str o) = opt_str o.
Proof. by destruct o. Qed.

Lemma opt_url_round o : bson_round (opt_url o) = opt_url o.
Proof. by destruct o. Qed.

Ltac dump_lookup Hk :=
  repeat (apply lookup_insert_Some in Hk as [[<- <-]|[? Hk]];
          [first [ done | apply opt_str_round | apply opt_url_round ]|]);
  by rewrite lookup_empty in Hk.

Lemma Project_dump_shaped (p : Project.t) : dump_shaped (Project.model_dump p).
Proof.
  split; [reflexivity|]. split; [by eexists|]. split; [by eexists|].
  intros k v Hk H1 H2. unfold Project.model_dump in Hk. dump_lookup Hk.
Qed.

Lemma BlogPost_dump_shaped (p : BlogPost.t) : dump_shaped (BlogPost.model_dump p).
Proof.
  split; [reflexivity|]. split; [by eexists|]. split; [by eexists|].
  intros k v Hk H1 H2. unfold BlogPost.model_dump in Hk. dump_lookup Hk.
Qed.

Lemma TechItem_dump_shaped (p : TechItem.t) : dump_shaped (TechItem.model_dump p).
Proof.
  split; [reflexivity|]. split; [by eexists|]. split; [by eexists|].
  intros k v Hk H1 H2. unfold TechItem.model_dump in Hk. dump_lookup Hk.
Qed.

Lemma stamps_encodable (dump : document) (now : datetime) :
  dump_shaped dump ->
  encodable (<["updated_at" := VDatetime now]>
               (<["created_at" := VDatetime now]> dump))
  <-> encodable dump.
Proof.
  intros (_ & [oc Hc] & [ou Hu] & _).
  rewrite stamp_encodable by (right; exists ou; by rewrite lookup_insert_ne).
  apply stamp_encodable. right. by exists oc.
Qed.

Lemma stamped_created (d : Database) (name : string) (now : datetime)
    (dump : document) :
  fault d = None ->
  dump_shaped dump ->
  encodable dump ->
  created d name now dump
    (res ← insert_one (db_get d name)
             (<["updated_at" := VDatetime now]>
                (<["created_at" := VDatetime now]> dump));
     Return (({["id" := VStr (ObjectId_str res.1)]} : document), res.2)).
Proof.
  intros Hf Hshape He.
  destruct (insert_one_stored d name
              (<["updated_at" := VDatetime now]>
                 (<["created_at" := VDatetime now]> dump)) Hf)
    as (d' & Hins & _ & Hdocs); [by apply stamps_encodable|].
  destruct Hshape as (Hid & _ & _ & Hother).
  rewrite Hins. eexists _, d'. split; [reflexivity|]. split; [exact Hdocs|].
  repeat split.
  - by rewrite lookup_fmap, lookup_insert_eq.
  - by rewrite lookup_fmap, lookup_insert_ne, lookup_insert_ne,
      lookup_insert_eq.
  - by rewrite lookup_fmap, lookup_insert_ne, lookup_insert_eq.
  - intros k H1 H2 H3. rewrite lookup_fmap, !lookup_insert_ne by done.
    destruct (dump !! k) as [v|] eqn:Hk; [|done]. simpl.
    f_equal. by apply (Hother k).
Qed.

Lemma stamped_refused (d : Database) (name : string) (now : datetime)
    (dump : document) :
  fault d = None ->
  dump_shaped dump ->
  ~ encodable dump ->
  refused
    (res ← insert_one (db_get d name)
             (<["updated_at" := VDatetime now]>
                (<["created_at" := VDatetime now]> dump));
     Return (({["id" := VStr (ObjectId_str res.1)]} : document), res.2)).
Proof.
  intros Hf Hshape He. apply refused_bind, insert_one_refused; [done| |].
  - destruct Hshape as (Hid & _). by rewrite !lookup_insert_ne.
  - by rewrite stamps_encodable.
Qed.

Lemma created_equal_stamps (d : Database) (name : string) (now : datetime)
    (dump : document) (r : result (document * Database)) :
  created d name now dump r -> created_with_equal_stamps name r.
Proof.
  intros (doc & d' & -> & Hdocs & _ & Hc & Hu & _).
  eexists _, doc, d', (to_millis now). split; [reflexivity|].
  rewrite Hdocs, last_snoc, Hc, Hu. done.
Qed.

(** The sample store is what a create at clock reading 1000 makes of the
    empty one. *)
Example create_project_sample :
  create_project (Some empty_store) 1000 sample_project
  = Return ({["id" := VStr sample_id]}, sample_store).
Proof. vm_compute. reflexivity. Qed.




(** C10: with a reachable store, the document a create handler stores has
    [created_at] equal to [updated_at] (both hold one clock reading), for
    each of the three entities.  (A project or post body that the encoder
    refuses is not stored: the handler raises.) *)
Theorem create_stamps_are_equal (d : Database) (now : datetime) :
  fault d = None ->
  (forall data,
      (Project.storable data ->
       created_with_equal_stamps "project" (create_project (Some d) now data))
      /\ (~ Project.storable data ->
          refused (create_project (Some d) now data)))
  /\ (forall data,
      (BlogPost.storable data ->
       created_with_equal_stamps "blogpost" (create_post (Some d) now data))
      /\ (~ BlogPost.storable data ->
          refused (create_post (Some d) now data)))
  /\ (forall data,
      created_with_equal_stamps "techitem" (create_tech (Some d) now data)).
Proof.
  intros Hf. repeat apply conj; intros data; [split; intros Hs..|].
  - eapply (created_equal_stamps d "project" now).
    unfold create_project. handler_steps.
    apply (stamped_created d "project" now);
      [done | apply Project_dump_shaped | by apply Project_dump_encodable].
  - unfold create_project. handler_steps.
    apply (stamped_refused d "project" now);
      [done | apply Project_dump_shaped | by rewrite <- Project_dump_encodable].
  - eapply (created_equal_stamps d "blogpost" now).
    unfold create_post. handler_steps.
    apply (stamped_created d "blogpost" now);
      [done | apply BlogPost_dump_shaped | by apply BlogPost_dump_encodable].
  - unfold create_post. handler_steps.
    apply (stamped_refused d "blogpost" now);
      [done | apply BlogPost_dump_shaped | by rewrite <- BlogPost_dump_encodable].
  - eapply (created_equal_stamps d "techitem" now).
    unfold create_tech. handler_steps.
    apply (stamped_created d "techitem" now);
      [done | apply TechItem_dump_shaped | apply TechItem_dump_encodable].
Qed.

Lemma create_stamps_are_equal_witness :
  created_with_equal_stamps "techitem"
    (create_tech (Some empty_store) 1000 sample_tech).
Proof.
  destruct (create_stamps_are_equal empty_store 1000 eq_refl)
    as (_ & _ & Htech).
  exact (Htech sample_tech).
Defined.

(** ** Lists *)

(** C9: on [/projects] and [/blog] a limit of 0 is the same request as no
    limit; with a reachable store it returns every document of the
    collection, in descending [created_at] order, not an empty list. *)
Theorem list_limit_zero_returns_all `{PyRuntime} :
  (forall db, list_projects db (Some 0) = list_projects db None)
  /\ (forall db, list_blog db (Some 0) = list_blog db None)
  /\ (forall cs n,
        let d := {| fault := None; collections := cs; next_oid := n |} in
        let sorted name :=
          apply_sort (Some ("created_at", -1)) (documents (db_get d name)) in
        list_projects (Some d) (Some 0)
        = Return (map serialize_doc (sorted "project"))
        /\ list_blog (Some d) (Some 0)
           = Return (map serialize_doc (sorted "blogpost"))
        /\ sorted "project" ≡ₚ documents (db_get d "project")
        /\ sorted "blogpost" ≡ₚ documents (db_get d "blogpost")
        /\ length (map serialize_doc (sorted "project"))
           = length (documents (db_get d "project"))
        /\ length (map serialize_doc (sorted "blogpost"))
           = length (documents (db_get d "blogpost"))).
Proof.
  repeat apply conj; try reflexivity.
  intros cs n d sorted. repeat apply conj; try reflexivity.
  - apply apply_sort_perm.
  - apply apply_sort_perm.
  - rewrite length_map. apply Permutation_length, apply_sort_perm.
  - rewrite length_map. apply Permutation_length, apply_sort_perm.
Qed.

(** A non-zero limit truncates. *)
Lemma list_projects_limit `{PyRuntime} (cs : gmap string (list document))
    (n : N) (k : Z) :
  k ≠ 0 ->
  let d := {| fault := None; collections := cs; next_oid := n |} in
  list_projects (Some d) (Some k)
  = Return (map serialize_doc
              (take (Z.abs_nat k)
                 (apply_sort (Some ("created_at", -1))
                    (documents (db_get d "project"))))).
Proof.
  intros Hk d. unfold list_projects, truthy, default. handler_steps.
  destruct (k =? 0) eqn:E; [apply Z.eqb_eq in E; done|].
  simpl. unfold Cursor_iter, apply_limit. handler_steps. by rewrite E.
Qed.

(** * Further properties *)

(** ** [serialize_doc] *)

Lemma render_datetime_not_datetime `{PyRuntime} (v : value) (t : datetime) :
  render_datetime v ≠ VDatetime t.
Proof. by destruct v. Qed.

Lemma serialize_doc_nonempty `{PyRuntime} (doc : document) :
  doc ≠ ∅ ->
  serialize_doc doc
  = render_datetime <$>
      (if decide (default VNone (doc !! "_id") ≠ VNone)
       then <["id" := VStr (py_str (default VNone (doc !! "_id")))]>
              (delete "_id" doc)
       else delete "_id" doc).
Proof. intros Hne. unfold serialize_doc. by case_decide. Qed.

Lemma serialize_doc_no_id `{PyRuntime} (doc : document) :
  serialize_doc doc !! "_id" = None.
Proof.
  destruct (decide (doc = ∅)) as [->|Hne]; [done|].
  rewrite serialize_doc_nonempty, lookup_fmap by done.
  case_decide; [rewrite lookup_insert_ne by done|];
    by rewrite lookup_delete_eq.
Qed.

Lemma serialize_doc_no_datetime `{PyRuntime} (doc : document) k t :
  serialize_doc doc !! k ≠ Some (VDatetime t).
Proof.
  destruct (decide (doc = ∅)) as [->|Hne]; [done|].
  rewrite serialize_doc_nonempty, lookup_fmap by done.
  intros Hk. apply fmap_Some in Hk as (v & _ & Hv).
  symmetry in Hv. by apply render_datetime_not_datetime in Hv.
Qed.

Lemma serialize_doc_other `{PyRuntime} (doc : document) k :
  k ≠ "_id" -> k ≠ "id" ->
  serialize_doc doc !! k = render_datetime <$> doc !! k.
Proof.
  intros Hk1 Hk2. destruct (decide (doc = ∅)) as [->|Hne]; [done|].
  rewrite serialize_doc_nonempty, lookup_fmap by done.
  case_decide; [rewrite lookup_insert_ne by done|];
    by rewrite lookup_delete_ne.
Qed.

Lemma serialize_doc_oid `{PyRuntime} (doc : document) o :
  doc !! "_id" = Some (VObjectId o) ->
  serialize_doc doc !! "id" = Some (VStr (ObjectId_str o)).
Proof.
  intros Hid.
  assert (doc ≠ ∅) as Hne by (intros ->; done).
  rewrite serialize_doc_nonempty, lookup_fmap, Hid by done.
  rewrite decide_True by done. by rewrite lookup_insert_eq.
Qed.

(** X1: a serialized document has no [_id] entry and no datetime value;
    every field other than [_id] and [id] is the stored one, a datetime
    replaced by its ISO string. *)
Theorem serialize_doc_fields `{PyRuntime} :
  (forall doc : document, serialize_doc doc !! "_id" = None)
  /\ (forall (doc : document) k t, serialize_doc doc !! k ≠ Some (VDatetime t))
  /\ (forall (doc : document) k, k ≠ "_id" -> k ≠ "id" ->
        serialize_doc doc !! k = render_datetime <$> doc !! k).
Proof.
  repeat apply conj.
  - apply serialize_doc_no_id.
  - apply serialize_doc_no_datetime.
  - apply serialize_doc_other.
Qed.

(** X2: the store's identifier comes out under [id] as its 24-digit hex
    string; a document without [_id] (or with a null one) keeps whatever
    [id] field it had. *)
Theorem serialize_doc_id `{PyRuntime} :
  (forall (doc : document) o,
      doc !! "_id" = Some (VObjectId o) ->
      serialize_doc doc !! "id" = Some (VStr (ObjectId_str o)))
  /\ (forall (doc : document) s,
      doc !! "_id" = Some (VStr s) ->
      serialize_doc doc !! "id" = Some (VStr s))
  /\ (forall doc : document,
      default VNone (doc !! "_id") = VNone ->
      serialize_doc doc !! "id" = render_datetime <$> doc !! "id").
Proof.
  repeat apply conj.
  - apply serialize_doc_oid.
  - intros doc s Hid.
    assert (doc ≠ ∅) as Hne by (intros ->; done).
    rewrite serialize_doc_nonempty, lookup_fmap, Hid by done.
    rewrite decide_True by done. by rewrite lookup_insert_eq.
  - intros doc Hid. destruct (decide (doc = ∅)) as [->|Hne]; [done|].
    rewrite serialize_doc_nonempty, lookup_fmap, Hid by done.
    case_decide; [done|]. by rewrite lookup_delete_ne.
Qed.

(** X3: serializing a serialized document changes nothing. *)
Theorem serialize_doc_idempotent `{PyRuntime} (doc : document) :
  serialize_doc (serialize_doc doc) = serialize_doc doc.
Proof.
  pose proof (serialize_doc_no_id doc) as Hid.
  pose proof (serialize_doc_no_datetime doc) as Hdt.
  set (r := serialize_doc doc).
  destruct (decide (r = ∅)) as [Hr|Hne]; [by rewrite Hr|].
  rewrite serialize_doc_nonempty by done.
  rewrite (Hid : r !! "_id" = None).
  rewrite decide_False by (intros E; by apply E).
  rewrite delete_id by exact Hid.
  apply map_eq. intros k. rewrite lookup_fmap.
  destruct (r !! k) as [v|] eqn:Hk; [|done]. simpl. f_equal.
  destruct v; try done. by apply Hdt in Hk.
Qed.

(** ** Identifiers *)

Lemma hex_digit_hex_char (d : N) :
  (d < 16)%N -> hex_digit (hex_char d) = Some d.
Proof.
  intros Hd.
  destruct d as [|p]; [reflexivity|].
  do 4 (destruct p as [p|p|]; try reflexivity; try lia).
Qed.

Lemma parse_hex_to_hex (k : nat) (n a : N) (s : string) :
  (n < 16 ^ N.of_nat k)%N ->
  parse_hex a (to_hex k n s) = parse_hex (a * 16 ^ N.of_nat k + n)%N s.
Proof.
  revert n s. induction k as [|k IH]; intros n s Hn.
  - simpl in *. f_equal. lia.
  - rewrite Nat2N.inj_succ, N.pow_succ_r' in *.
    cbn [to_hex]. rewrite IH by (apply N.Div0.div_lt_upper_bound; lia).
    cbn [parse_hex]. rewrite hex_digit_hex_char by (apply N.mod_lt; lia).
    f_equal.
    pose proof (N.div_mod n 16 ltac:(lia)). lia.
Qed.

Lemma to_hex_length (k : nat) (n : N) (s : string) :
  String.length (to_hex k n s) = (k + String.length s)%nat.
Proof.
  revert n s. induction k as [|k IH]; intros n s; [done|].
  cbn [to_hex]. rewrite IH. simpl. lia.
Qed.

(** The string of an identifier is 24 characters long, is accepted by
    [ObjectId.is_valid], and [ObjectId(...)] gives the identifier back. *)
Lemma ObjectId_str_round_trip (n : N) :
  (n < 2 ^ 96)%N ->
  String.length (ObjectId_str (Oid n)) = 24%nat
  /\ ObjectId_is_valid (ObjectId_str (Oid n)) = true
  /\ ObjectId_new (ObjectId_str (Oid n)) = Return (Oid n)
  /\ PyObjectId_validate (ObjectId_str (Oid n)) = Return (Oid n).
Proof.
  intros Hn.
  assert (Hlen : String.length (ObjectId_str (Oid n)) = 24%nat)
    by (unfold ObjectId_str; by rewrite to_hex_length).
  assert (Hparse : parse_hex 0 (ObjectId_str (Oid n)) = Some n).
  { unfold ObjectId_str. rewrite parse_hex_to_hex by exact Hn. reflexivity. }
  assert (Hnew : ObjectId_new (ObjectId_str (Oid n)) = Return (Oid n))
    by (unfold ObjectId_new; by rewrite Hlen, Hparse).
  assert (Hvalid : ObjectId_is_valid (ObjectId_str (Oid n)) = true).
  { unfold ObjectId_is_valid. by rewrite Hlen, Hparse. }
  repeat apply conj; try done.
  unfold PyObjectId_validate. by rewrite Hvalid.
Qed.

(** X5: [PyObjectId.validate] never lets bson's [InvalidId] out: it
    returns an identifier or raises [ValueError("Invalid ObjectId")]; on a
    string it returns exactly when [ObjectId(...)] does, with the same
    identifier. *)
Theorem PyObjectId_validate_outcomes :
  (forall v,
      match PyObjectId_validate_value v with
      | Return _ => True
      | Raise e => e = ValueError "Invalid ObjectId"
      end)
  /\ (forall o, PyObjectId_validate_value (VObjectId o) = Return o)
  /\ (forall s,
      PyObjectId_validate_value (VStr s) =
      match ObjectId_new s with
      | Return o => Return o
      | Raise _ => Raise (ValueError "Invalid ObjectId")
      end).
Proof.
  assert (Hs : forall s,
             PyObjectId_validate s =
             match ObjectId_new s with
             | Return o => Return o
             | Raise _ => Raise (ValueError "Invalid ObjectId")
             end).
  { intros s. unfold PyObjectId_validate, ObjectId_is_valid, ObjectId_new.
    destruct (String.length s =? 24)%nat; [|done]. simpl.
    destruct (parse_hex 0 s) as [n|]; [|done].
    rewrite bool_decide_eq_true_2 by (by eexists). done. }
  repeat apply conj; [|done|exact Hs].
  intros [| | |s| | |o|u]; simpl; try done.
  rewrite Hs. by destruct (ObjectId_new s).
Qed.

(** ** Writes by identifier *)

Lemma set_first_unmatched oid patch (docs : list document) :
  Forall (fun x => has_id oid x = false) docs -> set_first oid patch docs = None.
Proof.
  induction 1 as [|x docs Hx _ IH]; simpl; [done|]. by rewrite Hx, IH.
Qed.

Lemma remove_first_unmatched oid (docs : list document) :
  Forall (fun x => has_id oid x = false) docs -> remove_first oid docs = None.
Proof.
  induction 1 as [|x docs Hx _ IH]; simpl; [done|]. by rewrite Hx, IH.
Qed.

Lemma remove_first_app oid (pre post : list document) doc :
  Forall (fun x => has_id oid x = false) pre ->
  has_id oid doc = true ->
  remove_first oid (pre ++ doc :: post) = Some (pre ++ post).
Proof.
  intros Hpre Hdoc. induction Hpre as [|x pre Hx _ IH]; simpl.
  - by rewrite Hdoc.
  - by rewrite Hx, IH.
Qed.

Lemma documents_with_documents (c : Collection) (docs : list document) :
  documents (db_get (with_documents c docs) (coll_name c)) = docs.
Proof. unfold documents. simpl. by rewrite lookup_insert_eq. Qed.

Lemma documents_with_documents_ne (c : Collection) (docs : list document) name :
  name ≠ coll_name c ->
  documents (db_get (with_documents c docs) name) = documents (db_get (coll_db c) name).
Proof. intros Hne. unfold documents. simpl. by rewrite lookup_insert_ne. Qed.

Lemma delete_one_matched (d : Database) name oid pre doc post :
  fault d = None ->
  documents (db_get d name) = pre ++ doc :: post ->
  Forall (fun x => has_id oid x = false) pre ->
  has_id oid doc = true ->
  delete_one (db_get d name) oid
  = Return (1, with_documents (db_get d name) (pre ++ post)).
Proof.
  intros Hf Hdocs Hpre Hdoc. unfold delete_one, reachable. simpl.
  rewrite Hf. simpl. rewrite Hdocs.
  by rewrite (remove_first_app oid pre post doc Hpre Hdoc).
Qed.

Lemma update_one_unmatched (d : Database) name oid patch :
  fault d = None ->
  encodable patch ->
  Forall (fun x => has_id oid x = false) (documents (db_get d name)) ->
  update_one (db_get d name) oid patch = Return (0, d).
Proof.
  intros Hf He Hdocs. unfold update_one, reachable. simpl. rewrite Hf. simpl.
  rewrite (bson_encode_encodable _ He). simpl.
  by rewrite (set_first_unmatched oid _ _ Hdocs).
Qed.

Lemma delete_one_unmatched (d : Database) name oid :
  fault d = None ->
  Forall (fun x => has_id oid x = false) (documents (db_get d name)) ->
  delete_one (db_get d name) oid = Return (0, d).
Proof.
  intros Hf Hdocs. unfold delete_one, reachable. simpl. rewrite Hf. simpl.
  by rewrite (remove_first_unmatched oid _ Hdocs).
Qed.

(** X6: with a reachable store, a delete, or an update with a body the
    encoder accepts, whose identifier is well formed but matches no
    document of the collection fails with 404 "Not found".  An update with
    a body the encoder refuses raises before the store looks for a match. *)
Theorem unmatched_id_is_not_found (d : Database) (now : datetime)
    (id : string) (oid : ObjectId) :
  fault d = None ->
  ObjectId_new id = Return oid ->
  let unmatched name :=
    Forall (fun x => has_id oid x = false) (documents (db_get d name)) in
  let not_found : result (document * Database) :=
    Raise (HTTPException 404 "Not found") in
  (unmatched "project" ->
     (forall data, Project.storable data ->
        update_project (Some d) now id data = not_found)
     /\ (forall data, ~ Project.storable data ->
        refused (update_project (Some d) now id data))
     /\ delete_project (Some d) id = not_found)
  /\ (unmatched "blogpost" ->
     (forall data, BlogPost.storable data ->
        update_post (Some d) now id data = not_found)
     /\ (forall data, ~ BlogPost.storable data ->
        refused (update_post (Some d) now id data))
     /\ delete_post (Some d) id = not_found)
  /\ (unmatched "techitem" ->
     (forall data, update_tech (Some d) now id data = not_found)
     /\ delete_tech (Some d) id = not_found).
Proof.
  intros Hf Hid unmatched not_found.
  assert (Hstamp : forall (dump : document) t,
             dump_shaped dump ->
             encodable (<["updated_at" := VDatetime t]> dump) <-> encodable dump).
  { intros dump t (_ & _ & [o Ho] & _). apply stamp_encodable. right. by exists o. }
  repeat apply conj; intros Hun; repeat apply conj; try intros data Hs;
    try intros data;
    unfold update_project, update_post, update_tech,
      delete_project, delete_post, delete_tech;
    handler_steps; rewrite Hid.
  - erewrite update_one_unmatched; [done..| |done].
    apply Hstamp; [apply Project_dump_shaped | by apply Project_dump_encodable].
  - apply refused_bind, update_one_refused; [done|].
    rewrite Hstamp by apply Project_dump_shaped.
    by rewrite <- Project_dump_encodable.
  - by erewrite delete_one_unmatched by eassumption.
  - erewrite update_one_unmatched; [done..| |done].
    apply Hstamp; [apply BlogPost_dump_shaped | by apply BlogPost_dump_encodable].
  - apply refused_bind, update_one_refused; [done|].
    rewrite Hstamp by apply BlogPost_dump_shaped.
    by rewrite <- BlogPost_dump_encodable.
  - by erewrite delete_one_unmatched by eassumption.
  - erewrite update_one_unmatched; [done..| |done].
    apply Hstamp; [apply TechItem_dump_shaped | apply TechItem_dump_encodable].
  - by erewrite delete_one_unmatched by eassumption.
Qed.

Lemma unmatched_id_is_not_found_witness :
  update_project (Some sample_store) 2000 other_id sample_project
  = Raise (HTTPException 404 "Not found")
  /\ refused (update_project (Some sample_store) 2000 other_id url_project)
  /\ delete_project (Some sample_store) other_id
     = Raise (HTTPException 404 "Not found").
Proof.
  destruct (unmatched_id_is_not_found sample_store 2000 other_id (Oid 254)
              eq_refl eq_refl) as (Hp & _).
  destruct Hp as (Hu & Hr & Hd).
  - repeat constructor.
  - split; [|split]; [| |exact Hd].
    + apply (Hu sample_project). by repeat split.
    + apply (Hr url_project). by intros (? & _).
Defined.

(** X7: with a reachable store, a delete removes the first document that
    carries the identifier and nothing else: the documents before and
    after it stay, in order, and the other collections are untouched. *)
Theorem delete_removes_first_match (d : Database) (id : string)
    (oid : ObjectId) (pre post : list document) (doc : document) :
  fault d = None ->
  ObjectId_new id = Return oid ->
  Forall (fun x => has_id oid x = false) pre ->
  has_id oid doc = true ->
  let removed name (r : result (document * Database)) :=
    exists d',
      r = Return ({["ok" := VBool true]}, d')
      /\ documents (db_get d' name) = pre ++ post
      /\ forall other, other ≠ name ->
           documents (db_get d' other) = documents (db_get d other) in
  (documents (db_get d "project") = pre ++ doc :: post ->
     removed "project" (delete_project (Some d) id))
  /\ (documents (db_get d "blogpost") = pre ++ doc :: post ->
     removed "blogpost" (delete_post (Some d) id))
  /\ (documents (db_get d "techitem") = pre ++ doc :: post ->
     removed "techitem" (delete_tech (Some d) id)).
Proof.
  intros Hf Hid Hpre Hdoc removed.
  repeat apply conj; intros Hdocs;
    unfold delete_project, delete_post, delete_tech; handler_steps;
    rewrite Hid; erewrite delete_one_matched by eassumption;
    (eexists; split; [reflexivity|]; split;
     [ apply (documents_with_documents (db_get d _))
     | intros other Hne; by apply (documents_with_documents_ne (db_get d _)) ]).
Qed.

Lemma delete_removes_first_match_witness :
  exists d',
    delete_project (Some sample_store) sample_id
    = Return ({["ok" := VBool true]}, d')
    /\ documents (db_get d' "project") = [] ++ []
    /\ forall other, other ≠ "project" ->
         documents (db_get d' other) = documents (db_get sample_store other).
Proof.
  destruct (delete_removes_first_match sample_store sample_id (Oid 255)
              [] [] stored_project) as (Hp & _).
  - reflexivity.
  - vm_compute. reflexivity.
  - constructor.
  - vm_compute. reflexivity.
  - exact (Hp eq_refl).
Defined.

Lemma create_update_delete (d : Database) (name : string)
    (now now' : datetime) (dump dump' : document) :
  fault d = None ->
  (next_oid d < 2 ^ 96)%N ->
  Forall (fun x => has_id (Oid (next_oid d)) x = false)
         (documents (db_get d name)) ->
  dump_shaped dump -> encodable dump ->
  dump_shaped dump' -> encodable dump' ->
  exists id d1 d2 d3,
    (res ← insert_one (db_get d name)
             (<["updated_at" := VDatetime now]>
                (<["created_at" := VDatetime now]> dump));
     Return (({["id" := VStr (ObjectId_str res.1)]} : document), res.2))
    = Return ({["id" := VStr id]}, d1)
    /\ (oid ← ObjectId_new id;
        res ← update_one (db_get d1 name) oid
                (<["updated_at" := VDatetime now']> dump');
        if res.1 =? 0 then Raise (HTTPException 404 "Not found")
        else Return (({["ok" := VBool true]} : document), res.2))
       = Return ({["ok" := VBool true]}, d2)
    /\ (oid ← ObjectId_new id;
        res ← delete_one (db_get d1 name) oid;
        if res.1 =? 0 then Raise (HTTPException 404 "Not found")
        else Return (({["ok" := VBool true]} : document), res.2))
       = Return ({["ok" := VBool true]}, d3)
    /\ documents (db_get d3 name) = documents (db_get d name).
Proof.
  intros Hf Hn Hfresh Hshape He Hshape' He'.
  destruct (ObjectId_str_round_trip _ Hn) as (_ & _ & Hnew & _).
  destruct (insert_one_stored d name
              (<["updated_at" := VDatetime now]>
                 (<["created_at" := VDatetime now]> dump)) Hf)
    as (d1 & Hins & Hf1 & Hdocs); [by apply stamps_encodable|].
  set (stored := bson_round <$> _) in Hdocs.
  assert (Hid : has_id (Oid (next_oid d)) stored = true).
  { unfold has_id, stored. apply bool_decide_eq_true.
    by rewrite lookup_fmap, lookup_insert_eq. }
  assert (Hpatch : encodable (<["updated_at" := VDatetime now']> dump')).
  { destruct Hshape' as (_ & _ & [o Ho] & _).
    apply stamp_encodable; [right; by exists o | done]. }
  pose proof (update_one_matched d1 name (Oid (next_oid d))
                (<["updated_at" := VDatetime now']> dump')
                (documents (db_get d name)) stored []
                Hf1 Hpatch Hdocs Hfresh Hid) as Hupd.
  pose proof (delete_one_matched d1 name (Oid (next_oid d))
                (documents (db_get d name)) stored []
                Hf1 Hdocs Hfresh Hid) as Hdel.
  remember (ObjectId_str (Oid (next_oid d))) as id eqn:Eid.
  eexists id, d1, _, (with_documents (db_get d1 name)
                        (documents (db_get d name) ++ [])).
  rewrite Hins, Hnew. handler_steps. rewrite Hupd, Hdel. handler_steps.
  split; [subst id; reflexivity|].
  split; [reflexivity|]. split; [reflexivity|].
  pose proof (documents_with_documents (db_get d1 name)
                (documents (db_get d name) ++ [])) as Hw.
  simpl in Hw. by rewrite Hw, app_nil_r.
Qed.

(** X4: with a reachable store, the identifier string a create returns is
    accepted by the update and delete handlers on the resulting store and
    addresses the created document: the update finds it, and the delete
    removes it and leaves the collection as it was before the create.
    (The store's identifier fits twelve bytes and is not yet in use, and
    the bodies are ones the encoder accepts.) *)
Theorem created_id_addresses_document (d : Database) (now now' : datetime) :
  fault d = None ->
  (next_oid d < 2 ^ 96)%N ->
  let fresh name :=
    Forall (fun x => has_id (Oid (next_oid d)) x = false)
           (documents (db_get d name)) in
  let ok : document := {["ok" := VBool true]} in
  (fresh "project" -> forall data data',
     Project.storable data -> Project.storable data' ->
     exists id d1 d2 d3,
       create_project (Some d) now data = Return ({["id" := VStr id]}, d1)
       /\ update_project (Some d1) now' id data' = Return (ok, d2)
       /\ delete_project (Some d1) id = Return (ok, d3)
       /\ documents (db_get d3 "project") = documents (db_get d "project"))
  /\ (fresh "blogpost" -> forall data data',
     BlogPost.storable data -> BlogPost.storable data' ->
     exists id d1 d2 d3,
       create_post (Some d) now data = Return ({["id" := VStr id]}, d1)
       /\ update_post (Some d1) now' id data' = Return (ok, d2)
       /\ delete_post (Some d1) id = Return (ok, d3)
       /\ documents (db_get d3 "blogpost") = documents (db_get d "blogpost"))
  /\ (fresh "techitem" -> forall data data',
     exists id d1 d2 d3,
       create_tech (Some d) now data = Return ({["id" := VStr id]}, d1)
       /\ update_tech (Some d1) now' id data' = Return (ok, d2)
       /\ delete_tech (Some d1) id = Return (ok, d3)
       /\ documents (db_get d3 "techitem") = documents (db_get d "techitem")).
Proof.
  intros Hf Hn fresh ok.
  repeat apply conj.
  - intros Hfresh data data' Hs Hs'.
    apply (create_update_delete d "project" now now'
             (Project.model_dump data) (Project.model_dump data'));
      try done; first [ apply Project_dump_shaped
                      | by apply Project_dump_encodable ].
  - intros Hfresh data data' Hs Hs'.
    apply (create_update_delete d "blogpost" now now'
             (BlogPost.model_dump data) (BlogPost.model_dump data'));
      try done; first [ apply BlogPost_dump_shaped
                      | by apply BlogPost_dump_encodable ].
  - intros Hfresh data data'.
    apply (create_update_delete d "techitem" now now'
             (TechItem.model_dump data) (TechItem.model_dump data'));
      try done; first [ apply TechItem_dump_shaped
                      | apply TechItem_dump_encodable ].
Qed.

Lemma created_id_addresses_document_witness :
  exists id d1 d2 d3,
    create_project (Some empty_store) 1000 sample_project
    = Return ({["id" := VStr id]}, d1)
    /\ update_project (Some d1) 2000 id sample_project
       = Return ({["ok" := VBool true]}, d2)
    /\ delete_project (Some d1) id = Return ({["ok" := VBool true]}, d3)
    /\ documents (db_get d3 "project") = documents (db_get empty_store "project").
Proof.
  destruct (created_id_addresses_document empty_store 1000 2000 eq_refl eq_refl)
    as (Hp & _).
  apply (Hp (Forall_nil_2 _) sample_project sample_project);
    by repeat split.
Defined.

Lemma replaced_intro (d : Database) name now oid (dump : document)
    pre doc post :
  fault d = None ->
  dump_shaped dump ->
  encodable dump ->
  documents (db_get d name) = pre ++ doc :: post ->
  Forall (fun x => has_id oid x = false) pre ->
  has_id oid doc = true ->
  exists doc',
    (res ← update_one (db_get d name) oid (<["updated_at" := VDatetime now]> dump);
     if res.1 =? 0 then Raise (HTTPException 404 "Not found")
     else Return (({["ok" := VBool true]} : document), res.2))
    = Return ({["ok" := VBool true]},
              with_documents (db_get d name) (pre ++ doc' :: post))
    /\ (forall k v, k ≠ "updated_at" -> dump !! k = Some v ->
          doc' !! k = Some (bson_round v))
    /\ (forall k, k ≠ "updated_at" -> dump !! k = None -> doc' !! k = doc !! k).
Proof.
  intros Hf (_ & _ & [o Ho] & _) He Hdocs Hpre Hdoc.
  eexists. split; [|split].
  - erewrite update_one_matched; [reflexivity|done| |done..].
    apply stamp_encodable; [right; by exists o | done].
  - intros k v Hk Hv. apply lookup_union_Some_l.
    by rewrite lookup_fmap, lookup_insert_ne, Hv.
  - intros k Hk Hv. apply lookup_union_r.
    by rewrite lookup_fmap, lookup_insert_ne, Hv.
Qed.

Lemma refused_status {A} (r : result A) : refused r -> http_status r = 500.
Proof. by intros [msg [-> | ->]]. Qed.

(** X19: with a reachable store, a validated project or post body that
    the encoder refuses (one with a URL field set; a post whose
    [read_time] needs more than eight bytes) makes the create handler, and
    the update handler for any well-formed identifier, raise the encoder's
    error: the caller gets status 500 and nothing is written.  Every body
    with a URL field is such a body. *)
Theorem unencodable_body_is_refused (d : Database) (now : datetime)
    (id : string) (oid : ObjectId) :
  fault d = None ->
  ObjectId_new id = Return oid ->
  (forall data, ~ Project.storable data ->
     refused (create_project (Some d) now data)
     /\ refused (update_project (Some d) now id data)
     /\ http_status (create_project (Some d) now data) = 500
     /\ http_status (update_project (Some d) now id data) = 500)
  /\ (forall data, ~ BlogPost.storable data ->
     refused (create_post (Some d) now data)
     /\ refused (update_post (Some d) now id data)
     /\ http_status (create_post (Some d) now data) = 500
     /\ http_status (update_post (Some d) now id data) = 500)
  /\ (forall data u,
        Project.logo_url data = Some u \/ Project.demo_url data = Some u
        \/ Project.repo_url data = Some u ->
        ~ Project.storable data)
  /\ (forall data u, BlogPost.cover_url data = Some u -> ~ BlogPost.storable data).
Proof.
  intros Hf Hid.
  assert (Hp : forall data, ~ Project.storable data ->
             refused (create_project (Some d) now data)
             /\ refused (update_project (Some d) now id data)).
  { intros data Hs. split.
    - unfold create_project. handler_steps.
      apply (stamped_refused d "project" now);
        [done | apply Project_dump_shaped | by rewrite <- Project_dump_encodable].
    - unfold update_project. handler_steps. rewrite Hid.
      apply (update_refused_intro d "project" now oid);
        [done | by rewrite <- Project_dump_encodable | right; by eexists]. }
  assert (Hb : forall data, ~ BlogPost.storable data ->
             refused (create_post (Some d) now data)
             /\ refused (update_post (Some d) now id data)).
  { intros data Hs. split.
    - unfold create_post. handler_steps.
      apply (stamped_refused d "blogpost" now);
        [done | apply BlogPost_dump_shaped | by rewrite <- BlogPost_dump_encodable].
    - unfold update_post. handler_steps. rewrite Hid.
      apply (update_refused_intro d "blogpost" now oid);
        [done | by rewrite <- BlogPost_dump_encodable | right; by eexists]. }
  repeat apply conj.
  - intros data Hs. destruct (Hp data Hs) as [Hc Hu].
    repeat split; try done; by apply refused_status.
  - intros data Hs. destruct (Hb data Hs) as [Hc Hu].
    repeat split; try done; by apply refused_status.
  - intros data u Hu (H1 & H2 & H3). destruct Hu as [Hu|[Hu|Hu]]; congruence.
  - intros data u Hu (_ & Hc). congruence.
Qed.

Lemma unencodable_body_is_refused_witness :
  refused (create_project (Some empty_store) 1000 url_project)
  /\ refused (update_project (Some sample_store) 2000 sample_id url_project)
  /\ http_status (update_project (Some sample_store) 2000 sample_id url_project)
     = 500.
Proof.
  assert (Hs : ~ Project.storable url_project) by (by intros (? & _)).
  destruct (unencodable_body_is_refused empty_store 1000 sample_id (Oid 255)
              eq_refl eq_refl) as (Hc & _).
  destruct (unencodable_body_is_refused sample_store 2000 sample_id (Oid 255)
              eq_refl eq_refl) as (Hu & _).
  destruct (Hc url_project Hs) as (H1 & _).
  destruct (Hu url_project Hs) as (_ & H2 & _ & H3).
  by repeat split.
Defined.

(** X8: an update is a full replacement of the schema's fields, not a
    partial patch: every field of a validated body the encoder accepts, the
    defaults and nulls of the fields the request left out included,
    overwrites the stored one (a datetime cut to the millisecond); a stored
    field the schema does not know stays. *)
Theorem update_replaces_schema_fields (d : Database) (now : datetime)
    (id : string) (oid : ObjectId) (pre post : list document) (doc : document) :
  fault d = None ->
  ObjectId_new id = Return oid ->
  Forall (fun x => has_id oid x = false) pre ->
  has_id oid doc = true ->
  let replaced name (dump : document) (r : result (document * Database)) :=
    exists doc',
      r = Return ({["ok" := VBool true]},
                  with_documents (db_get d name) (pre ++ doc' :: post))
      /\ (forall k v, k ≠ "updated_at" -> dump !! k = Some v ->
            doc' !! k = Some (bson_round v))
      /\ (forall k, k ≠ "updated_at" -> dump !! k = None -> doc' !! k = doc !! k) in
  (forall data, Project.storable data ->
     documents (db_get d "project") = pre ++ doc :: post ->
     replaced "project" (Project.model_dump data)
       (update_project (Some d) now id data))
  /\ (forall data, BlogPost.storable data ->
     documents (db_get d "blogpost") = pre ++ doc :: post ->
     replaced "blogpost" (BlogPost.model_dump data)
       (update_post (Some d) now id data))
  /\ (forall data, documents (db_get d "techitem") = pre ++ doc :: post ->
     replaced "techitem" (TechItem.model_dump data)
       (update_tech (Some d) now id data)).
Proof.
  intros Hf Hid Hpre Hdoc replaced.
  repeat apply conj; [intros data Hs Hdocs..|intros data Hdocs];
    unfold update_project, update_post, update_tech; handler_steps;
    rewrite Hid.
  - apply (replaced_intro d "project" now oid); try done;
      [apply Project_dump_shaped | by apply Project_dump_encodable].
  - apply (replaced_intro d "blogpost" now oid); try done;
      [apply BlogPost_dump_shaped | by apply BlogPost_dump_encodable].
  - apply (replaced_intro d "techitem" now oid); try done;
      [apply TechItem_dump_shaped | apply TechItem_dump_encodable].
Qed.

(** A project stored with a description and the featured flag. *)
Lemma update_replaces_schema_fields_witness :
  let doc := <["featured" := VBool true]>
               (<["description" := VStr "long"]> stored_project) in
  let d := {| fault := None; collections := {["project" := [doc]]};
              next_oid := 256 |} in
  exists doc',
    update_project (Some d) 2000 sample_id sample_project
    = Return ({["ok" := VBool true]},
              with_documents (db_get d "project") ([] ++ doc' :: []))
    /\ doc' !! "description" = Some VNone
    /\ doc' !! "featured" = Some (VBool false).
Proof.
  intros doc d.
  destruct (update_replaces_schema_fields d 2000 sample_id (Oid 255) [] [] doc)
    as (Hp & _).
  - reflexivity.
  - vm_compute. reflexivity.
  - constructor.
  - vm_compute. reflexivity.
  - destruct (Hp sample_project) as (doc' & Hr & Hset & _);
      [by repeat split | reflexivity |].
    exists doc'. split; [exact Hr|].
    split; [apply (Hset "description" VNone) | apply (Hset "featured" (VBool false))];
      done.
Defined.

(** ** Tokens, continued *)

(** X9: [require_admin] has two outcomes only: it returns the decoded
    claims, whose role is "admin", or it raises an HTTPException of status
    401; no other exception and no other status leave it. *)
Theorem require_admin_outcomes (cfg : Settings) (now : datetime) (tok : token) :
  match require_admin cfg now tok with
  | Return data =>
      jwt_decode tok (JWT_SECRET cfg) now = Return data
      /\ data !! "role" = Some (VStr "admin")
  | Raise e =>
      e = HTTPException 401 "Token expired"
      \/ e = HTTPException 401 "Invalid token"
  end.
Proof.
  rewrite require_admin_cases.
  destruct (jwt_decode tok (JWT_SECRET cfg) now) as [data|e].
  - case_decide; [done | by right].
  - destruct e; auto.
Qed.

(** X10: the token [create_token] issues for the role "admin" at clock
    reading [now] passes [require_admin] at every clock reading before its
    expiry, which is 8 hours after [now] cut to the whole second, and is
    answered 401 "Token expired" from the expiry on. *)
Theorem issued_token_lifetime (cfg : Settings) (now now' : datetime) :
  let claims : gmap string value :=
    <["exp" := VInt (now / 1000000 + 8 * 3600)]> {["role" := VStr "admin"]} in
  require_admin cfg now' (create_token cfg now {["role" := VStr "admin"]})
  = (if (now / 1000000 + 8 * 3600) * 1000000 <=? now'
     then Raise (HTTPException 401 "Token expired")
     else Return claims)
  /\ (now' + 1000000 <= now + 8 * 3600 * 1000000 ->
      require_admin cfg now' (create_token cfg now {["role" := VStr "admin"]})
      = Return claims)
  /\ (now + 8 * 3600 * 1000000 <= now' ->
      require_admin cfg now' (create_token cfg now {["role" := VStr "admin"]})
      = Raise (HTTPException 401 "Token expired")).
Proof.
  intros claims.
  assert (Htok : create_token cfg now {["role" := VStr "admin"]}
                 = Signed claims (JWT_SECRET cfg)).
  { unfold create_token. rewrite jwt_encode_exp. unfold claims.
    unfold timedelta_minutes, TOKEN_EXPIRE_MINUTES.
    replace (now + 60 * 8 * 60 * 1000000) with (now + 28800 * 1000000) by lia.
    by rewrite Z.div_add by lia. }
  assert (Heq : require_admin cfg now' (Signed claims (JWT_SECRET cfg))
                = (if (now / 1000000 + 8 * 3600) * 1000000 <=? now'
                   then Raise (HTTPException 401 "Token expired")
                   else Return claims)).
  { rewrite require_admin_cases. unfold jwt_decode.
    rewrite decide_True by done.
    replace (claims !! "exp") with (Some (VInt (now / 1000000 + 8 * 3600)))
      by done.
    destruct (_ <=? now'); [done|]. by rewrite decide_True. }
  rewrite Htok, Heq.
  pose proof (Z.div_mod now 1000000 ltac:(lia)) as Hdm.
  pose proof (Z.mod_pos_bound now 1000000 ltac:(lia)) as Hmod.
  repeat apply conj; [done| |]; intros Hle.
  - destruct (Z.leb_spec ((now / 1000000 + 8 * 3600) * 1000000) now');
      [lia|done].
  - destruct (Z.leb_spec ((now / 1000000 + 8 * 3600) * 1000000) now');
      [done|lia].
Qed.

(** ** The status endpoint, continued *)

(** X12: the three answers of [/test].  Without a configured store the
    object says "Not configured" and "Not Connected".  With a reachable
    store it says "Available" and "Connected" and lists exactly the names
    of the store's collections.  When the store raises, the connection
    status still reads "Connected" (it was set before the call that
    failed), the [database] entry carries the error, and there is no
    [collections] entry. *)
Theorem test_database_states :
  (exists s,
      test_database None = Return s
      /\ s !! "database" = Some (VStr "⚠️ Not configured")
      /\ s !! "connection_status" = Some (VStr "Not Connected")
      /\ s !! "collections" = None)
  /\ (forall cs n, exists s names,
        test_database (Some {| fault := None; collections := cs; next_oid := n |})
        = Return s
        /\ s !! "database" = Some (VStr "✅ Available")
        /\ s !! "connection_status" = Some (VStr "Connected")
        /\ s !! "collections" = Some (VList names)
        /\ forall name, name ∈ names <-> is_Some (cs !! name))
  /\ (forall msg cs n, exists s,
        test_database (Some {| fault := Some msg; collections := cs;
                               next_oid := n |})
        = Return s
        /\ s !! "connection_status" = Some (VStr "Connected")
        /\ s !! "collections" = None).
Proof.
  repeat apply conj.
  - eexists. by repeat split.
  - intros cs n. eexists _, _. split; [reflexivity|].
    repeat apply conj; try done.
    intros name. rewrite list_elem_of_fmap. split.
    + intros ([k v] & -> & Hkv). apply elem_of_map_to_list in Hkv. by eexists.
    + intros [v Hv]. exists (name, v). split; [done|].
      by apply elem_of_map_to_list.
  - intros msg cs n. eexists. by repeat split.
Qed.

(** ** Lists, continued *)

(** X13: with a reachable store and a positive limit [k], [/projects] and
    [/blog] return the first [k] documents of the collection in descending
    [created_at] order: at most [k], and all of them when the collection
    has no more than [k]. *)
Theorem list_positive_limit `{PyRuntime}
    (cs : gmap string (list document)) (n : N) (k : positive) :
  let d := {| fault := None; collections := cs; next_oid := n |} in
  let sorted name :=
    apply_sort (Some ("created_at", -1)) (documents (db_get d name)) in
  list_projects (Some d) (Some (Z.pos k))
  = Return (map serialize_doc (take (Pos.to_nat k) (sorted "project")))
  /\ list_blog (Some d) (Some (Z.pos k))
     = Return (map serialize_doc (take (Pos.to_nat k) (sorted "blogpost")))
  /\ (length (map serialize_doc (take (Pos.to_nat k) (sorted "project")))
      <= Pos.to_nat k)%nat
  /\ (length (map serialize_doc (take (Pos.to_nat k) (sorted "blogpost")))
      <= Pos.to_nat k)%nat
  /\ ((length (documents (db_get d "project")) <= Pos.to_nat k)%nat ->
      take (Pos.to_nat k) (sorted "project") = sorted "project")
  /\ ((length (documents (db_get d "blogpost")) <= Pos.to_nat k)%nat ->
      take (Pos.to_nat k) (sorted "blogpost") = sorted "blogpost").
Proof.
  intros d sorted. repeat apply conj.
  - reflexivity.
  - reflexivity.
  - rewrite length_map, length_take. lia.
  - rewrite length_map, length_take. lia.
  - intros Hlen. apply take_ge.
    unfold sorted. by rewrite (Permutation_length (apply_sort_perm _ _)).
  - intros Hlen. apply take_ge.
    unfold sorted. by rewrite (Permutation_length (apply_sort_perm _ _)).
Qed.

(** X14: with a reachable store [/tech] returns every tech item, in
    ascending [name] order. *)
Theorem list_tech_sorted_by_name `{PyRuntime}
    (cs : gmap string (list document)) (n : N) :
  let d := {| fault := None; collections := cs; next_oid := n |} in
  exists items,
    list_tech (Some d) = Return (map serialize_doc items)
    /\ items ≡ₚ documents (db_get d "techitem")
    /\ StronglySorted (sort_le "name" 1) items
    /\ length (map serialize_doc items) = length (documents (db_get d "techitem")).
Proof.
  intros d. eexists. split; [reflexivity|].
  repeat apply conj.
  - apply apply_sort_perm.
  - apply apply_sort_sorted.
  - rewrite length_map. apply Permutation_length, apply_sort_perm.
Qed.

(** ** Lookups by slug *)

Lemma find_first_match {A} (f : A -> bool) (pre post : list A) (x : A) :
  Forall (fun y => f y = false) pre -> f x = true ->
  List.find f (pre ++ x :: post) = Some x.
Proof.
  intros Hpre Hx. induction Hpre as [|y pre Hy _ IH]; simpl.
  - by rewrite Hx.
  - by rewrite Hy.
Qed.

Lemma find_no_match {A} (f : A -> bool) (l : list A) :
  Forall (fun y => f y = false) l -> List.find f l = None.
Proof. induction 1 as [|y l Hy _ IH]; simpl; [done|]. by rewrite Hy. Qed.

Lemma get_project_by_slug_found `{PyRuntime} (d : Database) slug pre doc post :
  fault d = None ->
  documents (db_get d "project") = pre ++ doc :: post ->
  Forall (fun x => has_slug slug x = false) pre ->
  has_slug slug doc = true ->
  get_project_by_slug (Some d) slug = Return (serialize_doc doc).
Proof.
  intros Hf Hdocs Hpre Hdoc.
  unfold get_project_by_slug, find_one, reachable. handler_steps.
  rewrite Hf. handler_steps. rewrite Hdocs.
  rewrite (find_first_match
             (fun x : document => bool_decide (x !! "slug" = Some (VStr slug)))
             pre post doc Hpre Hdoc).
  rewrite decide_False; [done|].
  intros ->. unfold has_slug in Hdoc. by apply bool_decide_eq_true in Hdoc.
Qed.

Lemma get_post_by_slug_found `{PyRuntime} (d : Database) slug pre doc post :
  fault d = None ->
  documents (db_get d "blogpost") = pre ++ doc :: post ->
  Forall (fun x => has_slug slug x = false) pre ->
  has_slug slug doc = true ->
  get_post_by_slug (Some d) slug = Return (serialize_doc doc).
Proof.
  intros Hf Hdocs Hpre Hdoc.
  unfold get_post_by_slug, find_one, reachable. handler_steps.
  rewrite Hf. handler_steps. rewrite Hdocs.
  rewrite (find_first_match
             (fun x : document => bool_decide (x !! "slug" = Some (VStr slug)))
             pre post doc Hpre Hdoc).
  rewrite decide_False; [done|].
  intros ->. unfold has_slug in Hdoc. by apply bool_decide_eq_true in Hdoc.
Qed.

Lemma get_project_by_slug_missing `{PyRuntime} (d : Database) slug :
  fault d = None ->
  Forall (fun x => has_slug slug x = false) (documents (db_get d "project")) ->
  get_project_by_slug (Some d) slug = Raise (HTTPException 404 "Project not found").
Proof.
  intros Hf Hno.
  unfold get_project_by_slug, find_one, reachable. handler_steps.
  rewrite Hf. handler_steps.
  by rewrite
    (find_no_match
       (fun x : document => bool_decide (x !! "slug" = Some (VStr slug)))
       _ Hno).
Qed.

Lemma get_post_by_slug_missing `{PyRuntime} (d : Database) slug :
  fault d = None ->
  Forall (fun x => has_slug slug x = false) (documents (db_get d "blogpost")) ->
  get_post_by_slug (Some d) slug = Raise (HTTPException 404 "Post not found").
Proof.
  intros Hf Hno.
  unfold get_post_by_slug, find_one, reachable. handler_steps.
  rewrite Hf. handler_steps.
  by rewrite
    (find_no_match
       (fun x : document => bool_decide (x !! "slug" = Some (VStr slug)))
       _ Hno).
Qed.

(** X15: with a reachable store, a lookup by slug answers with the first
    document, in store order, whose [slug] is the requested string,
    serialized; documents stored later under the same slug are never
    returned.  When no document has the slug the answer is 404. *)
Theorem get_by_slug_first_match `{PyRuntime} (d : Database) (slug : string) :
  fault d = None ->
  (forall pre doc post,
      documents (db_get d "project") = pre ++ doc :: post ->
      Forall (fun x => has_slug slug x = false) pre ->
      has_slug slug doc = true ->
      get_project_by_slug (Some d) slug = Return (serialize_doc doc))
  /\ (forall pre doc post,
      documents (db_get d "blogpost") = pre ++ doc :: post ->
      Forall (fun x => has_slug slug x = false) pre ->
      has_slug slug doc = true ->
      get_post_by_slug (Some d) slug = Return (serialize_doc doc))
  /\ (Forall (fun x => has_slug slug x = false) (documents (db_get d "project")) ->
      get_project_by_slug (Some d) slug
      = Raise (HTTPException 404 "Project not found"))
  /\ (Forall (fun x => has_slug slug x = false) (documents (db_get d "blogpost")) ->
      get_post_by_slug (Some d) slug
      = Raise (HTTPException 404 "Post not found")).
Proof.
  intros Hf.
  repeat apply conj.
  - intros pre doc post. by apply get_project_by_slug_found.
  - intros pre doc post. by apply get_post_by_slug_found.
  - by apply get_project_by_slug_missing.
  - by apply get_post_by_slug_missing.
Qed.

Lemma get_by_slug_first_match_witness :
  @get_project_by_slug blank_runtime (Some sample_store) "x"
  = Return (@serialize_doc blank_runtime stored_project)
  /\ @get_project_by_slug blank_runtime (Some sample_store) "y"
     = Raise (HTTPException 404 "Project not found").
Proof.
  destruct (@get_by_slug_first_match blank_runtime sample_store "x" eq_refl)
    as (Hfound & _).
  destruct (@get_by_slug_first_match blank_runtime sample_store "y" eq_refl)
    as (_ & _ & Hmissing & _).
  split.
  - apply (Hfound [] stored_project []); [reflexivity | constructor | ].
    vm_compute. reflexivity.
  - apply Hmissing. repeat constructor.
Defined.

(** X16: create, then get by slug.  With a reachable store in which no
    project (post) has the body's slug yet, and a body the encoder accepts,
    the lookup by that slug after the create returns the created document:
    its [id] is the identifier the create returned, its stamps are the
    rendering of the create's clock reading cut to the millisecond, and
    every other field is the body's. *)
Theorem create_then_get_by_slug `{PyRuntime} (d : Database) (now : datetime) :
  fault d = None ->
  let found (dump : document) (created : result (document * Database))
            (get : Database -> result document) :=
    exists id d1 doc,
      created = Return ({["id" := VStr id]}, d1)
      /\ get d1 = Return doc
      /\ doc !! "id" = Some (VStr id)
      /\ doc !! "_id" = None
      /\ doc !! "created_at" = Some (VStr (isoformat (to_millis now)))
      /\ doc !! "updated_at" = Some (VStr (isoformat (to_millis now)))
      /\ forall k, k ≠ "id" -> k ≠ "_id" -> k ≠ "created_at" ->
           k ≠ "updated_at" -> doc !! k = render_datetime <$> dump !! k in
  (forall data,
      Project.storable data ->
      Forall (fun x => has_slug (Project.slug data) x = false)
             (documents (db_get d "project")) ->
      found (Project.model_dump data) (create_project (Some d) now data)
        (fun d1 => get_project_by_slug (Some d1) (Project.slug data)))
  /\ (forall data,
      BlogPost.storable data ->
      Forall (fun x => has_slug (BlogPost.slug data) x = false)
             (documents (db_get d "blogpost")) ->
      found (BlogPost.model_dump data) (create_post (Some d) now data)
        (fun d1 => get_post_by_slug (Some d1) (BlogPost.slug data))).
Proof.
  intros Hf found.
  pose proof (@serialize_doc_no_id _) as Hnoid.
  pose proof (@serialize_doc_other _) as Hother.
  pose proof (@serialize_doc_oid _) as Hidf.
  assert (Hgen : forall name (dump : document) slug
                   (get : Database -> result document),
             dump_shaped dump ->
             encodable dump ->
             dump !! "slug" = Some (VStr slug) ->
             Forall (fun x => has_slug slug x = false) (documents (db_get d name)) ->
             (forall d1 pre doc,
                 fault d1 = None ->
                 documents (db_get d1 name) = pre ++ doc :: [] ->
                 Forall (fun x => has_slug slug x = false) pre ->
                 has_slug slug doc = true ->
                 get d1 = Return (serialize_doc doc)) ->
             found dump
               (res ← insert_one (db_get d name)
                        (<["updated_at" := VDatetime now]>
                           (<["created_at" := VDatetime now]> dump));
                Return ({["id" := VStr (ObjectId_str res.1)]}, res.2))
               get).
  { intros name dump slug get Hshape He Hslug Hfresh Hget.
    destruct (insert_one_stored d name
                (<["updated_at" := VDatetime now]>
                   (<["created_at" := VDatetime now]> dump)) Hf)
      as (d1 & Hins & Hf1 & Hd1); [by apply stamps_encodable|].
    set (stored := bson_round <$> _) in Hd1.
    destruct Hshape as (_ & _ & _ & Hround).
    assert (Hstored : has_slug slug stored = true).
    { unfold has_slug, stored. apply bool_decide_eq_true.
      by rewrite lookup_fmap, !lookup_insert_ne, Hslug. }
    rewrite Hins.
    exists (ObjectId_str (Oid (next_oid d))), d1, (serialize_doc stored).
    split; [reflexivity|].
    split; [by apply (Hget d1 (documents (db_get d name)) stored)|].
    split; [apply Hidf; unfold stored;
            by rewrite lookup_fmap, lookup_insert_eq|].
    split; [apply Hnoid|].
    split; [rewrite Hother by done; unfold stored;
            by rewrite lookup_fmap, lookup_insert_ne, lookup_insert_ne,
              lookup_insert_eq|].
    split; [rewrite Hother by done; unfold stored;
            by rewrite lookup_fmap, lookup_insert_ne, lookup_insert_eq|].
    intros k H1 H2 H3 H4. rewrite Hother by done. unfold stored.
    rewrite lookup_fmap, !lookup_insert_ne by done.
    destruct (dump !! k) as [v|] eqn:Hk; [|done]. simpl.
    by rewrite (Hround k v Hk H3 H4). }
  split; intros data Hs Hfresh.
  - unfold create_project. handler_steps.
    apply (Hgen "project" _ (Project.slug data));
      [apply Project_dump_shaped | by apply Project_dump_encodable
      | done | done |].
    intros d1 pre doc Hf1 Hdocs Hpre Hdoc.
    by apply (get_project_by_slug_found d1 _ pre doc []).
  - unfold create_post. handler_steps.
    apply (Hgen "blogpost" _ (BlogPost.slug data));
      [apply BlogPost_dump_shaped | by apply BlogPost_dump_encodable
      | done | done |].
    intros d1 pre doc Hf1 Hdocs Hpre Hdoc.
    by apply (get_post_by_slug_found d1 _ pre doc []).
Qed.

Lemma create_then_get_by_slug_witness :
  exists id d1 doc,
    create_project (Some empty_store) 1000 sample_project
    = Return ({["id" := VStr id]}, d1)
    /\ @get_project_by_slug blank_runtime (Some d1) "x" = Return doc
    /\ doc !! "id" = Some (VStr id)
    /\ doc !! "title" = Some (VStr "X")
    /\ doc !! "featured" = Some (VBool false).
Proof.
  destruct (@create_then_get_by_slug blank_runtime empty_store 1000 eq_refl)
    as (Hp & _).
  destruct (Hp sample_project)
    as (id & d1 & doc & Hc & Hg & Hid & _ & _ & _ & Hother);
    [by repeat split | apply Forall_nil_2 |].
  exists id, d1, doc. repeat split; try assumption.
  - by rewrite Hother.
  - by rewrite Hother.
Defined.

(** ** The store cannot be reached *)

(** X17: no data handler catches an error of the store.  When the store is
    configured but every operation raises, the list, lookup, create and
    home handlers raise that same error, which the framework answers with
    status 500; nothing is written.  ([/test] is the one endpoint that
    turns the error into a status string.) *)
Theorem unreachable_store_error_escapes `{PyRuntime}
    (msg : string) (cs : gmap string (list document)) (n : N) :
  let d := {| fault := Some msg; collections := cs; next_oid := n |} in
  let e := PyMongoError msg in
  (forall limit, list_projects (Some d) limit = Raise e)
  /\ (forall limit, list_blog (Some d) limit = Raise e)
  /\ list_tech (Some d) = Raise e
  /\ (forall slug, get_project_by_slug (Some d) slug = Raise e)
  /\ (forall slug, get_post_by_slug (Some d) slug = Raise e)
  /\ (forall now data, create_project (Some d) now data = Raise e)
  /\ (forall now data, create_post (Some d) now data = Raise e)
  /\ (forall now data, create_tech (Some d) now data = Raise e)
  /\ home_data (Some d) = Raise e
  /\ http_status (home_data (Some d)) = 500
  /\ (exists s, test_database (Some d) = Return s).
Proof.
  intros d e. repeat apply conj; intros; try reflexivity.
  - unfold list_projects. by destruct (truthy limit).
  - unfold list_blog. by destruct (truthy limit).
  - by eexists.
Qed.

(** X18: delete, then get by slug.  With a reachable store, once the only
    project (post) carrying a slug is deleted by its identifier, the
    lookup by that slug answers 404. *)
Theorem delete_then_get_by_slug `{PyRuntime} (d : Database) (id slug : string)
    (oid : ObjectId) (pre post : list document) (doc : document) :
  fault d = None ->
  ObjectId_new id = Return oid ->
  Forall (fun x => has_id oid x = false) pre ->
  has_id oid doc = true ->
  Forall (fun x => has_slug slug x = false) (pre ++ post) ->
  (documents (db_get d "project") = pre ++ doc :: post ->
     exists d',
       delete_project (Some d) id = Return ({["ok" := VBool true]}, d')
       /\ get_project_by_slug (Some d') slug
          = Raise (HTTPException 404 "Project not found"))
  /\ (documents (db_get d "blogpost") = pre ++ doc :: post ->
     exists d',
       delete_post (Some d) id = Return ({["ok" := VBool true]}, d')
       /\ get_post_by_slug (Some d') slug
          = Raise (HTTPException 404 "Post not found")).
Proof.
  intros Hf Hid Hpre Hdoc Hslug.
  split; intros Hdocs;
    unfold delete_project, delete_post; handler_steps;
    rewrite Hid; erewrite delete_one_matched by eassumption;
    cbn [fst snd Z.eqb]; (eexists; split; [reflexivity|]).
  - apply get_project_by_slug_missing; [exact Hf|].
    pose proof (documents_with_documents (db_get d "project") (pre ++ post))
      as Hw.
    simpl in Hw. by rewrite Hw.
  - apply get_post_by_slug_missing; [exact Hf|].
    pose proof (documents_with_documents (db_get d "blogpost") (pre ++ post))
      as Hw.
    simpl in Hw. by rewrite Hw.
Qed.

Lemma delete_then_get_by_slug_witness :
  @get_project_by_slug blank_runtime (Some sample_store) "x"
  = Return (@serialize_doc blank_runtime stored_project)
  /\ exists d',
       delete_project (Some sample_store) sample_id
       = Return ({["ok" := VBool true]}, d')
       /\ @get_project_by_slug blank_runtime (Some d') "x"
          = Raise (HTTPException 404 "Project not found").
Proof.
  split; [vm_compute; reflexivity|].
  destruct (@delete_then_get_by_slug blank_runtime sample_store sample_id "x"
              (Oid 255) [] [] stored_project) as (Hp & _).
  - reflexivity.
  - vm_compute. reflexivity.
  - constructor.
  - vm_compute. reflexivity.
  - constructor.
  - exact (Hp eq_refl).
Defined.
